(** * nl-query: the LLM provider layer ([llm_provider.py])

    A shallow embedding of the provider adapters, the factory
    [get_llm_provider] and the singleton accessor [get_provider], with the
    properties the specification states about them.

    Conventions of the embedding.
    - A Python [str] is a [string]; each character is read as a code point
      below 256, and [isspace] and [lower] are Python's on that range.
    - [os.environ] is a finite map from names to values.
    - Effects are explicit: a computation takes the process state ([World])
      and returns a value or a raised exception together with the new state.
      Reads of the environment and calls sent to a backend are appended to a
      trace; what a backend answers is given by an oracle of the world.
    - Provider objects live in a store ([heap]); a reference is an index into
      it, so that object identity is equality of references.
    - The client packages are taken to be installed. A client handle records
      the arguments the client was built with; the [OpenAI] client refuses
      an empty key. What a client reads from the environment on its own is
      not modelled. *)

From Stdlib Require Import ZArith String Ascii List Bool Lia.
From Stdlib Require Import Floats.PrimFloat.
From stdpp Require Import base option list gmap strings.
Import ListNotations.

Local Open Scope Z_scope.
Local Open Scope string_scope.

(** ** Python strings *)

Module Str.

(** The line feed, written ["\n"] in the source. *)
Definition nl : string := String "010"%char EmptyString.

(** [str.isspace] on one character: TAB..CR, FS..US, space, NEL and NBSP. *)
Definition isspace (c : ascii) : bool :=
  let n := N_of_ascii c in
  ((9 <=? n) && (n <=? 13) || (28 <=? n) && (n <=? 32)
   || (n =? 133) || (n =? 160))%N.

(** [s.lstrip()] *)
Fixpoint lstrip (s : string) : string :=
  match s with
  | EmptyString => EmptyString
  | String c s' => if isspace c then lstrip s' else s
  end.

Definition is_empty (s : string) : bool :=
  match s with EmptyString => true | String _ _ => false end.

(** [s.rstrip()] *)
Fixpoint rstrip (s : string) : string :=
  match s with
  | EmptyString => EmptyString
  | String c s' =>
      let r := rstrip s' in
      if is_empty r && isspace c then EmptyString else String c r
  end.

(** [s.strip()] *)
Definition strip (s : string) : string := rstrip (lstrip s).

(** [s.rstrip(chars)] for a single character [chars]. *)
Fixpoint rstrip_char (x : ascii) (s : string) : string :=
  match s with
  | EmptyString => EmptyString
  | String c s' =>
      let r := rstrip_char x s' in
      if is_empty r && Ascii.eqb c x then EmptyString else String c r
  end.

(** [str.lower] on one character: A..Z and the Latin-1 capitals
    (U+00C0..U+00DE without the multiplication sign) move up by 32. *)
Definition lower_char (c : ascii) : ascii :=
  let n := N_of_ascii c in
  if ((65 <=? n) && (n <=? 90)
      || (192 <=? n) && (n <=? 222) && negb (n =? 215))%N
  then ascii_of_N (n + 32) else c.

(** [s.lower()] *)
Fixpoint lower (s : string) : string :=
  match s with
  | EmptyString => EmptyString
  | String c s' => String (lower_char c) (lower s')
  end.

(** [sep.join(parts)] *)
Definition join (sep : string) (parts : list string) : string :=
  String.concat sep parts.

(** [needle in s] *)
Fixpoint contains (needle s : string) : bool :=
  String.prefix needle s
  || match s with
     | EmptyString => false
     | String _ s' => contains needle s'
     end.

(** Truthiness of an [Optional[str]]: [None] and [""] are false. *)
Definition truthy (o : option string) : bool :=
  match o with
  | Some s => negb (is_empty s)
  | None => false
  end.

(** An [Optional[str]] under [if not o]: the string when [o] is true. *)
Definition nonempty (o : option string) : option string :=
  match o with
  | Some s => if is_empty s then None else Some s
  | None => None
  end.

(** [o or d] for an [Optional[str]] [o] and a string [d]. *)
Definition or_else (o : option string) (d : string) : string :=
  match o with
  | Some s => if is_empty s then d else s
  | None => d
  end.

End Str.

(** ** Data *)

(** A chat message, [{"role": ..., "content": ...}]. *)
Record Message := { role : string; content : string }.

(** Values of the [json] module; an object keeps its keys in order. *)
#[local] Unset Elimination Schemes.
Inductive json :=
| JNull
| JBool (b : bool)
| JInt (n : Z)
| JFloat (x : float)
| JStr (s : string)
| JList (l : list json)
| JDict (d : list (string * json)).
#[local] Set Elimination Schemes.

Definition Message_json (m : Message) : json :=
  JDict [("role", JStr (role m)); ("content", JStr (content m))].

(** Exceptions the layer raises or lets through. *)
Inductive exn :=
| ValueError (msg : string)
| KeyError (key : string)
| TypeError
| AttributeError
| IndexError
| JSONDecodeError
| HTTPError (status_code : Z)
| OpenAIError
| BackendError (detail : string).

(** ** Backends and the process state *)

(** The handles of the client libraries. A handle records the arguments the
    client was built with: [oa_base_url] is the [base_url] argument of the
    call, [None] when the call passes none. What the client derives from
    them, and from variables of its own such as [OPENAI_BASE_URL], is the
    library's and no part of the handle. *)
Record OpenAIClient := { oa_api_key : string; oa_base_url : option string }.
Record AnthropicClient := { an_api_key : string }.

(** [OpenAI(api_key=..., base_url=...)] of the [openai] package, taken to be
    installed: the client refuses an empty key with [OpenAIError], and is
    built from its arguments otherwise. *)
Definition OpenAI (api_key : string) (base_url : option string)
  : exn + OpenAIClient :=
  if Str.is_empty api_key then inl OpenAIError
  else inr {| oa_api_key := api_key; oa_base_url := base_url |}.

(** [client.chat.completions.create(model, messages, max_tokens, temperature)] *)
Record CompletionsRequest := {
  cr_model : string;
  cr_messages : list Message;
  cr_max_tokens : Z;
  cr_temperature : float
}.

(** [client.messages.create(model, max_tokens, system, messages)] *)
Record MessagesRequest := {
  mr_model : string;
  mr_max_tokens : Z;
  mr_system : option string;
  mr_messages : list Message
}.

(** [requests.post(url, json=..., timeout=...)] *)
Record PostRequest := { pr_url : string; pr_json : json; pr_timeout : Z }.

(** A completion's [message.content] may be [None]. *)
Record CompletionsResponse := { choices : list (option string) }.

Inductive ContentBlock :=
| TextBlock (text : string)
| OtherBlock.

Record MessagesResponse := { blocks : list ContentBlock }.

(** An HTTP response: its status, and its body when the body is JSON. *)
Record Response := { status_code : Z; body : option json }.

Inductive event :=
| EvGetenv (key : string)
| EvPost (req : PostRequest)
| EvMessagesCreate (client : AnthropicClient) (req : MessagesRequest)
| EvCompletionsCreate (client : OpenAIClient) (req : CompletionsRequest).

Definition is_network_call (e : event) : bool :=
  match e with
  | EvGetenv _ => false
  | _ => true
  end.

(** What the outside world answers to a call, given what happened before. *)
Record Backend := {
  on_post : list event -> PostRequest -> exn + Response;
  on_messages_create :
    list event -> AnthropicClient -> MessagesRequest -> exn + MessagesResponse;
  on_completions_create :
    list event -> OpenAIClient -> CompletionsRequest -> exn + CompletionsResponse
}.

(** The provider objects: what [__init__] stores in [self]. *)
Record OpenAIProvider := {
  openai_model : string;
  openai_client : OpenAIClient
}.

Record AnthropicProvider := {
  anthropic_model : string;
  anthropic_client : AnthropicClient
}.

Record OllamaProvider := {
  ollama_model : string;
  ollama_base_url : string
}.

Record VLLMProvider := {
  vllm_model : string;
  vllm_client : OpenAIClient
}.

Record OpenAICompatibleProvider := {
  compat_model : string;
  compat_client : OpenAIClient
}.

(** An instance of some subclass of the abstract class [LLMProvider]. *)
Inductive LLMProvider :=
| IsOpenAI (p : OpenAIProvider)
| IsAnthropic (p : AnthropicProvider)
| IsOllama (p : OllamaProvider)
| IsVLLM (p : VLLMProvider)
| IsOpenAICompatible (p : OpenAICompatibleProvider).

(** A reference to a provider object. *)
Definition ref := nat.

(** The state of the process: [os.environ], the objects constructed so far,
    the module global [_provider], what has been read and sent so far, and
    the backends the process talks to. *)
Record World := {
  environ : gmap string string;
  heap : list LLMProvider;
  _provider : option ref;
  trace : list event;
  backend : Backend
}.

Definition log (e : event) (w : World) : World :=
  {| environ := environ w; heap := heap w; _provider := _provider w;
     trace := trace w ++ [e]; backend := backend w |}.

Definition alloc (o : LLMProvider) (w : World) : World :=
  {| environ := environ w; heap := heap w ++ [o]; _provider := _provider w;
     trace := trace w; backend := backend w |}.

Definition set_provider (r : ref) (w : World) : World :=
  {| environ := environ w; heap := heap w; _provider := Some r;
     trace := trace w; backend := backend w |}.

(** ** Computations: state and exceptions *)

Definition M (A : Type) : Type := World -> (exn + A) * World.

Definition ret {A} (a : A) : M A := fun w => (inr a, w).

Definition raise {A} (e : exn) : M A := fun w => (inl e, w).

Definition bind {A B} (m : M A) (k : A -> M B) : M B :=
  fun w =>
    match m w with
    | (inl e, w') => (inl e, w')
    | (inr a, w') => k a w'
    end.

Notation "x <- m ;; k" := (bind m (fun x => k))
  (at level 100, m at next level, right associativity).
Notation "m ;; k" := (bind m (fun _ => k))
  (at level 100, right associativity).

(** A value the outside world produced, or the exception it raised. *)
Definition lift {A} (r : exn + A) : M A := fun w => (r, w).

(** [os.getenv(key)] *)
Definition os_getenv (key : string) : M (option string) :=
  fun w => (inr (environ w !! key), log (EvGetenv key) w).

(** [os.getenv(key, default)] *)
Definition os_getenv_default (key dflt : string) : M string :=
  fun w => (inr (default dflt (environ w !! key)), log (EvGetenv key) w).

(** Calling a class: the new object is stored and its reference returned. *)
Definition new (o : LLMProvider) : M ref :=
  fun w => (inr (length (heap w)), alloc o w).

(** Calling a class whose [__init__] may raise: the exception leaves the
    call, and no object is stored. *)
Definition construct {T} (cls : T -> LLMProvider) (init : exn + T) : M ref :=
  match init with
  | inl e => raise e
  | inr self => new (cls self)
  end.

(** [requests.post] *)
Definition requests_post (req : PostRequest) : M Response :=
  fun w => (on_post (backend w) (trace w) req, log (EvPost req) w).

(** [client.messages.create] *)
Definition messages_create (client : AnthropicClient) (req : MessagesRequest)
  : M MessagesResponse :=
  fun w => (on_messages_create (backend w) (trace w) client req,
            log (EvMessagesCreate client req) w).

(** [client.chat.completions.create] *)
Definition completions_create (client : OpenAIClient) (req : CompletionsRequest)
  : M CompletionsResponse :=
  fun w => (on_completions_create (backend w) (trace w) client req,
            log (EvCompletionsCreate client req) w).

(** [Response.raise_for_status] of the [requests] library: [HTTPError] when
    [400 <= status_code < 600], nothing otherwise. *)
Definition raise_for_status (response : Response) : M unit :=
  if ((400 <=? status_code response) && (status_code response <? 600))%Z
  then raise (HTTPError (status_code response))
  else ret tt.

(** [Response.json] *)
Definition Response_json (response : Response) : M json :=
  match body response with
  | Some j => ret j
  | None => raise JSONDecodeError
  end.

(** [d.get(key)] on the items of a [dict]. *)
Fixpoint dict_get (key : string) (d : list (string * json)) : option json :=
  match d with
  | [] => None
  | (k, v) :: d' => if String.eqb k key then Some v else dict_get key d'
  end.

(** [j[key]] for a string [key]. *)
Definition getitem (j : json) (key : string) : M json :=
  match j with
  | JDict d =>
      match dict_get key d with
      | Some v => ret v
      | None => raise (KeyError key)
      end
  | _ => raise TypeError
  end.

(** [j.strip()] *)
Definition json_strip (j : json) : M string :=
  match j with
  | JStr s => ret (Str.strip s)
  | _ => raise AttributeError
  end.

(** [l[0]] *)
Definition first {A} (l : list A) : M A :=
  match l with
  | x :: _ => ret x
  | [] => raise IndexError
  end.

(** ** The adapters *)

(** The abstract class [LLMProvider]: what every adapter offers. *)
Class Provider (T : Type) := {
  chat : T -> list Message -> Z -> float -> M string;
  name : T -> string
}.

(** The body the three OpenAI-style adapters share, word for word. *)
Definition completions_chat (model : string) (client : OpenAIClient)
    (messages : list Message) (max_tokens : Z) (temperature : float)
  : M string :=
  response <- completions_create client
    {| cr_model := model; cr_messages := messages;
       cr_max_tokens := max_tokens; cr_temperature := temperature |} ;;
  choice <- first (choices response) ;;
  match choice with
  | Some text => ret (Str.strip text)
  | None => raise AttributeError
  end.

Module OpenAIProvider.

Definition default_model : string := "gpt-4o".

Definition __init__ (api_key model : string) (base_url : option string)
  : exn + OpenAIProvider :=
  match (if Str.truthy base_url then OpenAI api_key base_url
         else OpenAI api_key None) with
  | inl e => inl e
  | inr client => inr {| openai_model := model; openai_client := client |}
  end.

Definition chat (self : OpenAIProvider) :=
  completions_chat (openai_model self) (openai_client self).

Definition name (self : OpenAIProvider) : string :=
  "OpenAI (" +:+ openai_model self +:+ ")".

End OpenAIProvider.

Module AnthropicProvider.

Definition default_model : string := "claude-sonnet-4-20250514".

(** The [anthropic] package is taken to be installed; the handle records
    the key the client was built with. *)
Definition __init__ (api_key model : string) : AnthropicProvider :=
  {| anthropic_model := model;
     anthropic_client := {| an_api_key := api_key |} |}.

(** One turn of the loop over [messages]: the state is
    [(system_content, chat_messages)]. *)
Definition split_step (acc : string * list Message) (msg : Message)
  : string * list Message :=
  let '(system_content, chat_messages) := acc in
  if String.eqb (role msg) "system"
  then (system_content +:+ (content msg +:+ Str.nl), chat_messages)
  else (system_content, (chat_messages ++ [msg])%list).

Definition split (messages : list Message) : string * list Message :=
  fold_left split_step messages ("", []).

Definition placeholder : Message :=
  {| role := "user"; content := "Please respond." |}.

(** The request [chat] sends: [temperature] is not part of it. *)
Definition request (self : AnthropicProvider) (messages : list Message)
    (max_tokens : Z) : MessagesRequest :=
  let '(system_content, chat_messages) := split messages in
  let chat_messages :=
    match chat_messages with
    | [] => [placeholder]
    | _ :: _ => chat_messages
    end in
  {| mr_model := anthropic_model self;
     mr_max_tokens := max_tokens;
     mr_system :=
       if Str.is_empty system_content then None
       else Some (Str.strip system_content);
     mr_messages := chat_messages |}.

Definition chat (self : AnthropicProvider) (messages : list Message)
    (max_tokens : Z) (temperature : float) : M string :=
  response <- messages_create (anthropic_client self)
                (request self messages max_tokens) ;;
  block <- first (blocks response) ;;
  match block with
  | TextBlock text => ret (Str.strip text)
  | OtherBlock => raise AttributeError
  end.

Definition name (self : AnthropicProvider) : string :=
  "Anthropic (" +:+ anthropic_model self +:+ ")".

End AnthropicProvider.

Module OllamaProvider.

Definition default_model : string := "llama3.1".
Definition default_base_url : string := "http://localhost:11434".

Definition __init__ (model base_url : string) : OllamaProvider :=
  {| ollama_model := model;
     ollama_base_url := Str.rstrip_char "/"%char base_url |}.

(** The JSON body of the request. *)
Definition payload (self : OllamaProvider) (messages : list Message)
    (max_tokens : Z) (temperature : float) : json :=
  JDict [("model", JStr (ollama_model self));
         ("messages", JList (map Message_json messages));
         ("stream", JBool false);
         ("options", JDict [("num_predict", JInt max_tokens);
                            ("temperature", JFloat temperature)])].

Definition chat (self : OllamaProvider) (messages : list Message)
    (max_tokens : Z) (temperature : float) : M string :=
  response <- requests_post
    {| pr_url := ollama_base_url self +:+ "/api/chat";
       pr_json := payload self messages max_tokens temperature;
       pr_timeout := 120 |} ;;
  raise_for_status response ;;
  data <- Response_json response ;;
  message <- getitem data "message" ;;
  text <- getitem message "content" ;;
  json_strip text.

Definition name (self : OllamaProvider) : string :=
  "Ollama (" +:+ ollama_model self +:+ ")".

End OllamaProvider.

Module VLLMProvider.

Definition default_base_url : string := "http://localhost:8000/v1".
Definition default_api_key : string := "EMPTY".

Definition __init__ (model base_url api_key : string)
  : exn + VLLMProvider :=
  match OpenAI api_key (Some base_url) with
  | inl e => inl e
  | inr client => inr {| vllm_model := model; vllm_client := client |}
  end.

Definition chat (self : VLLMProvider) :=
  completions_chat (vllm_model self) (vllm_client self).

Definition name (self : VLLMProvider) : string :=
  "vLLM (" +:+ vllm_model self +:+ ")".

End VLLMProvider.

Module OpenAICompatibleProvider.

Definition default_api_key : string := "EMPTY".

Definition __init__ (model base_url api_key : string)
  : exn + OpenAICompatibleProvider :=
  match OpenAI api_key (Some base_url) with
  | inl e => inl e
  | inr client => inr {| compat_model := model; compat_client := client |}
  end.

Definition chat (self : OpenAICompatibleProvider) :=
  completions_chat (compat_model self) (compat_client self).

Definition name (self : OpenAICompatibleProvider) : string :=
  "OpenAI-Compatible (" +:+ compat_model self +:+ ")".

End OpenAICompatibleProvider.

#[export] Instance OpenAI_Provider : Provider OpenAIProvider :=
  {| chat := OpenAIProvider.chat; name := OpenAIProvider.name |}.
#[export] Instance Anthropic_Provider : Provider AnthropicProvider :=
  {| chat := AnthropicProvider.chat; name := AnthropicProvider.name |}.
#[export] Instance Ollama_Provider : Provider OllamaProvider :=
  {| chat := OllamaProvider.chat; name := OllamaProvider.name |}.
#[export] Instance VLLM_Provider : Provider VLLMProvider :=
  {| chat := VLLMProvider.chat; name := VLLMProvider.name |}.
#[export] Instance OpenAICompatible_Provider
  : Provider OpenAICompatibleProvider :=
  {| chat := OpenAICompatibleProvider.chat;
     name := OpenAICompatibleProvider.name |}.

(** Method dispatch on an object of the store. *)
#[export] Instance LLMProvider_Provider : Provider LLMProvider :=
  {| chat o :=
       match o with
       | IsOpenAI p => chat p
       | IsAnthropic p => chat p
       | IsOllama p => chat p
       | IsVLLM p => chat p
       | IsOpenAICompatible p => chat p
       end;
     name o :=
       match o with
       | IsOpenAI p => name p
       | IsAnthropic p => name p
       | IsOllama p => name p
       | IsVLLM p => name p
       | IsOpenAICompatible p => name p
       end |}.

(** ** The factory and the singleton accessor *)

Definition unknown_provider_message (provider_type : string) : string :=
  "Unknown LLM provider: " +:+ provider_type +:+ ". "
  +:+ "Supported: openai, anthropic, ollama, vllm, openai-compatible".

(** [get_llm_provider()] *)
Definition get_llm_provider : M ref :=
  provider_type <-
    (v <- os_getenv_default "LLM_PROVIDER" "openai" ;; ret (Str.lower v)) ;;
  model <- os_getenv "LLM_MODEL" ;;
  base_url <- os_getenv "LLM_BASE_URL" ;;
  if String.eqb provider_type "openai" then
    api_key <- os_getenv "OPENAI_API_KEY" ;;
    match Str.nonempty api_key with
    | None =>
        raise (ValueError
          "OPENAI_API_KEY environment variable is required for OpenAI provider")
    | Some api_key =>
        construct IsOpenAI
          (OpenAIProvider.__init__ api_key (Str.or_else model "gpt-4o")
             base_url)
    end
  else if String.eqb provider_type "anthropic"
          || String.eqb provider_type "claude" then
    api_key <- os_getenv "ANTHROPIC_API_KEY" ;;
    match Str.nonempty api_key with
    | None =>
        raise (ValueError
          "ANTHROPIC_API_KEY environment variable is required for Anthropic provider")
    | Some api_key =>
        new (IsAnthropic (AnthropicProvider.__init__ api_key
                            (Str.or_else model "claude-sonnet-4-20250514")))
    end
  else if String.eqb provider_type "ollama" then
    new (IsOllama (OllamaProvider.__init__
                     (Str.or_else model "llama3.1")
                     (Str.or_else base_url "http://localhost:11434")))
  else if String.eqb provider_type "vllm" then
    match Str.nonempty model with
    | None =>
        raise (ValueError
          "LLM_MODEL environment variable is required for vLLM provider")
    | Some model =>
        api_key <- os_getenv_default "OPENAI_API_KEY" "EMPTY" ;;
        construct IsVLLM
          (VLLMProvider.__init__ model
             (Str.or_else base_url "http://localhost:8000/v1") api_key)
    end
  else if String.eqb provider_type "openai-compatible" then
    match Str.nonempty model with
    | None =>
        raise (ValueError
          "LLM_MODEL environment variable is required for OpenAI-compatible provider")
    | Some model =>
        match Str.nonempty base_url with
        | None =>
            raise (ValueError
              "LLM_BASE_URL environment variable is required for OpenAI-compatible provider")
        | Some base_url =>
            api_key <- os_getenv_default "OPENAI_API_KEY" "EMPTY" ;;
            construct IsOpenAICompatible
              (OpenAICompatibleProvider.__init__ model base_url api_key)
        end
    end
  else
    raise (ValueError (unknown_provider_message provider_type)).

(** Reading and writing the module global [_provider]. *)
Definition load_provider : M (option ref) := fun w => (inr (_provider w), w).

Definition store_provider (p : ref) : M unit :=
  fun w => (inr tt, set_provider p w).

(** [get_provider()]: the global is filled on first use. *)
Definition get_provider : M ref :=
  cached <- load_provider ;;
  match cached with
  | None =>
      p <- get_llm_provider ;;
      store_provider p ;;
      ret p
  | Some p => ret p
  end.

(** Following a reference into the store. In the source a name holds the
    object itself: the second branch has no counterpart there, it only makes
    [deref] a function of every [ref], and it is not taken at a reference
    the factory or the accessor returned. *)
Definition deref (p : ref) : M LLMProvider :=
  fun w =>
    match heap w !! p with
    | Some o => (inr o, w)
    | None => (inl AttributeError, w)
    end.

(** The module-level [chat]: the singleton's [chat]. *)
Definition module_chat (messages : list Message) (max_tokens : Z)
    (temperature : float) : M string :=
  p <- get_provider ;;
  o <- deref p ;;
  chat o messages max_tokens temperature.

(** ** What the specification speaks about *)

(** [os.environ[key] = value], done by the host of the layer. *)
Definition setenv (key value : string) (w : World) : World :=
  {| environ := <[key := value]> (environ w); heap := heap w;
     _provider := _provider w; trace := trace w; backend := backend w |}.

Definition is_system (m : Message) : bool := String.eqb (role m) "system".

(** The contents of the system messages, in order. *)
Definition system_contents (messages : list Message) : list string :=
  map content (List.filter is_system messages).

(** The messages that are not system messages, in order. *)
Definition non_system (messages : list Message) : list Message :=
  List.filter (fun m => negb (is_system m)) messages.

(** What the loop appends to [system_content]: every content, each followed
    by a line feed. *)
Fixpoint lines (cs : list string) : string :=
  match cs with
  | [] => ""
  | c :: cs' => (c +:+ Str.nl) +:+ lines cs'
  end.

(** The kind the factory selects on, as [get_llm_provider] computes it. *)
Definition provider_type (w : World) : string :=
  Str.lower (default "openai" (environ w !! "LLM_PROVIDER")).

(** The strings the branches of the factory accept. *)
Definition accepted : list string :=
  ["openai"; "anthropic"; "claude"; "ollama"; "vllm"; "openai-compatible"].

(** The kinds the error for an unknown kind lists. *)
Definition listed : list string :=
  ["openai"; "anthropic"; "ollama"; "vllm"; "openai-compatible"].

(** The three reads of the environment that open every run of the factory. *)
Definition config_reads : list event :=
  [EvGetenv "LLM_PROVIDER"; EvGetenv "LLM_MODEL"; EvGetenv "LLM_BASE_URL"].

(** [del os.environ[key]], done by the host of the layer. *)
Definition unsetenv (key : string) (w : World) : World :=
  {| environ := delete key (environ w); heap := heap w;
     _provider := _provider w; trace := trace w; backend := backend w |}.





(** The global [_provider] is the same in both states. *)
Definition same_cell : relation World :=
  fun w w' => _provider w' = _provider w.

(** The store has only grown: every object is where it was. *)
Definition heap_grows : relation World :=
  fun w w' => heap w `prefix_of` heap w'.

(** ** Example processes *)

(** A backend that answers every POST with [r] and offers nothing else. *)
Definition backend_answering (r : Response) : Backend :=
  {| on_post := fun _ _ => inr r;
     on_messages_create := fun _ _ _ => inl (BackendError "no route");
     on_completions_create := fun _ _ _ => inl (BackendError "no route") |}.

Definition offline : Backend :=
  {| on_post := fun _ _ => inl (BackendError "no route");
     on_messages_create := fun _ _ _ => inl (BackendError "no route");
     on_completions_create := fun _ _ _ => inl (BackendError "no route") |}.

(** A fresh process with the given environment and backend. *)
Definition process (env : list (string * string)) (b : Backend) : World :=
  {| environ := list_to_map env; heap := []; _provider := None;
     trace := []; backend := b |}.

Definition claude : AnthropicProvider :=
  AnthropicProvider.__init__ "key" AnthropicProvider.default_model.

Definition only_padded_system : list Message :=
  [{| role := "system"; content := " a" |}].

Definition llama : OllamaProvider :=
  OllamaProvider.__init__ OllamaProvider.default_model
    OllamaProvider.default_base_url.

Definition reply (status : Z) (text : string) : Response :=
  {| status_code := status;
     body := Some (JDict [("message", JDict [("content", JStr text)])]) |}.

Definition hello : list Message := [{| role := "user"; content := "hello" |}].

(** ** The consumer [description_generator.py] *)

(** What a consumer can raise: the error of reading a local variable that
    was never assigned, or an exception of the provider layer. *)
Inductive consumer_exn :=
| UnboundLocalError (name : string)
| Raised (e : exn).

Section DescriptionGenerator.

(** [prompts.py] and [config.py] are not part of the sources: the two
    templates are taken as the functions [TEMPLATE.format(...)] computes,
    the system prompt as a string, and the two entries of [LLM_CONFIG] as
    values. *)
Variable TABLE_DESCRIPTION_PROMPT : string -> string.
Variable COLUMN_DESCRIPTION_PROMPT : string -> option string -> string.
Variable DESCRIPTION_SYSTEM_PROMPT : string.
Variable LLM_CONFIG_max_tokens : Z.
Variable LLM_CONFIG_temperature : float.

(** [generate_description(item_name, item_type, data_type=None)]: the local
    [prompt] is assigned only in the two branches; it is read when the
    arguments of [provider.chat] are evaluated, after [get_provider()]. *)
Definition generate_description (item_name item_type : string)
    (data_type : option string) : World -> (consumer_exn + string) * World :=
  fun w =>
    let prompt :=
      if String.eqb item_type "table"
      then Some (TABLE_DESCRIPTION_PROMPT item_name)
      else if String.eqb item_type "column"
      then Some (COLUMN_DESCRIPTION_PROMPT item_name data_type)
      else None in
    match (p <- get_provider ;; deref p) w with
    | (inl e, w') => (inl (Raised e), w')
    | (inr provider, w') =>
        match prompt with
        | None => (inl (UnboundLocalError "prompt"), w')
        | Some prompt =>
            match chat provider
                    [{| role := "system"; content := DESCRIPTION_SYSTEM_PROMPT |};
                     {| role := "user"; content := prompt |}]
                    LLM_CONFIG_max_tokens LLM_CONFIG_temperature w' with
            | (inl e, w'') => (inl (Raised e), w'')
            | (inr description, w'') => (inr description, w'')
            end
        end
    end.

End DescriptionGenerator.

(** ** More vocabulary *)

(** What a run of the factory shows: its result, the store and the trace
    it leaves. *)
Definition factory_outcome (w : World)
  : (exn + ref) * list LLMProvider * list event :=
  let r := get_llm_provider w in (fst r, heap (snd r), trace (snd r)).

(** The five names the factory looks up in the environment. *)
Definition config_keys : list string :=
  ["LLM_PROVIDER"; "LLM_MODEL"; "LLM_BASE_URL"; "OPENAI_API_KEY";
   "ANTHROPIC_API_KEY"].

(** The model an adapter was built for. *)
Definition model_of (o : LLMProvider) : string :=
  match o with
  | IsOpenAI p => openai_model p
  | IsAnthropic p => anthropic_model p
  | IsOllama p => ollama_model p
  | IsVLLM p => vllm_model p
  | IsOpenAICompatible p => compat_model p
  end.

(** The invariant of a process: a filled global [_provider] names an object
    of the store. *)
Definition well_formed (w : World) : Prop :=
  forall p, _provider w = Some p -> is_Some (heap w !! p).

(** The client of an adapter that talks to an OpenAI-style backend. *)
Definition completions_client (o : LLMProvider) : option OpenAIClient :=
  match o with
  | IsOpenAI p => Some (openai_client p)
  | IsVLLM p => Some (vllm_client p)
  | IsOpenAICompatible p => Some (compat_client p)
  | IsAnthropic _ | IsOllama _ => None
  end.

(** * Properties *)

(** ** Strings *)

Section StringFacts.

Lemma append_nil_l (s : string) : "" +:+ s = s.
Proof. reflexivity. Qed.

Lemma append_cons (c : ascii) (a b : string) :
  String c a +:+ b = String c (a +:+ b).
Proof. reflexivity. Qed.

Lemma append_assoc (a b c : string) : (a +:+ b) +:+ c = a +:+ (b +:+ c).
Proof.
  induction a as [|x a IH]; [reflexivity |].
  now rewrite !append_cons, IH.
Qed.

Lemma append_empty_r (a : string) : a +:+ "" = a.
Proof.
  induction a as [|x a IH]; [reflexivity |].
  now rewrite append_cons, IH.
Qed.

(** A trailing line feed does not survive [rstrip]. *)
Lemma rstrip_app_nl (s : string) : Str.rstrip (s +:+ Str.nl) = Str.rstrip s.
Proof.
  induction s as [|c s IH]; [reflexivity |].
  rewrite append_cons. cbn [Str.rstrip]. now rewrite IH.
Qed.

(** [lstrip] of a string followed by a line feed: either the string was all
    white space, or the line feed stays behind what [lstrip] leaves. *)
Lemma lstrip_app_nl (s : string) :
  (Str.lstrip s = "" /\ Str.lstrip (s +:+ Str.nl) = "")
  \/ Str.lstrip (s +:+ Str.nl) = Str.lstrip s +:+ Str.nl.
Proof.
  induction s as [|c s IH].
  - left. split; reflexivity.
  - rewrite append_cons. cbn [Str.lstrip].
    destruct (Str.isspace c); [exact IH | right; reflexivity].
Qed.

Lemma strip_app_nl (s : string) : Str.strip (s +:+ Str.nl) = Str.strip s.
Proof.
  unfold Str.strip.
  destruct (lstrip_app_nl s) as [[Hs Hn] | H].
  - now rewrite Hs, Hn.
  - rewrite H. apply rstrip_app_nl.
Qed.

End StringFacts.

(** ** The Anthropic adapter: system messages and turns *)

Section AnthropicSplit.

Lemma lines_empty (cs : list string) :
  Str.is_empty (lines cs) = match cs with [] => true | _ :: _ => false end.
Proof.
  destruct cs as [|c cs]; [reflexivity |].
  destruct c; reflexivity.
Qed.

Lemma lines_join (c : string) (cs : list string) :
  lines (c :: cs) = Str.join Str.nl (c :: cs) +:+ Str.nl.
Proof.
  revert c. induction cs as [|d cs IH]; intros c.
  - cbn [lines]. unfold Str.join. cbn [String.concat].
    now rewrite append_empty_r.
  - change (lines (c :: d :: cs)) with ((c +:+ Str.nl) +:+ lines (d :: cs)).
    rewrite IH.
    change (Str.join Str.nl (c :: d :: cs))
      with (c +:+ (Str.nl +:+ Str.join Str.nl (d :: cs))).
    now rewrite !append_assoc.
Qed.

(** The loop, from any state of its two variables. *)
Lemma split_from (messages : list Message) (sc : string) (cm : list Message) :
  fold_left AnthropicProvider.split_step messages (sc, cm)
  = (sc +:+ lines (system_contents messages),
     (cm ++ non_system messages)%list).
Proof.
  revert sc cm. induction messages as [|m ms IH]; intros sc cm.
  - cbn. now rewrite append_empty_r, app_nil_r.
  - cbn [fold_left AnthropicProvider.split_step].
    unfold system_contents, non_system in *. cbn [List.filter].
    change (String.eqb (role m) "system") with (is_system m).
    destruct (is_system m); cbn [negb map]; rewrite IH.
    + cbn [lines]. now rewrite !append_assoc.
    + now rewrite <- app_assoc.
Qed.

Lemma split_spec (messages : list Message) :
  AnthropicProvider.split messages
  = (lines (system_contents messages), non_system messages).
Proof. unfold AnthropicProvider.split. now rewrite split_from. Qed.

(** The preamble of the request. *)
Lemma request_system self messages max_tokens :
  mr_system (AnthropicProvider.request self messages max_tokens)
  = match system_contents messages with
    | [] => None
    | c :: cs => Some (Str.strip (Str.join Str.nl (c :: cs)))
    end.
Proof.
  unfold AnthropicProvider.request. rewrite split_spec. cbn [mr_system].
  rewrite lines_empty.
  destruct (system_contents messages) as [|c cs]; [reflexivity |].
  now rewrite lines_join, strip_app_nl.
Qed.

(** The turns of the request. *)
Lemma request_messages self messages max_tokens :
  mr_messages (AnthropicProvider.request self messages max_tokens)
  = match non_system messages with
    | [] => [AnthropicProvider.placeholder]
    | m :: ms => m :: ms
    end.
Proof.
  unfold AnthropicProvider.request. rewrite split_spec. cbn [mr_messages].
  destruct (non_system messages); reflexivity.
Qed.

(** [chat] sends exactly one call, and it carries [request]. *)
Lemma anthropic_chat_trace self messages max_tokens temperature w :
  trace (snd (AnthropicProvider.chat self messages max_tokens temperature w))
  = (trace w ++ [EvMessagesCreate (anthropic_client self)
                   (AnthropicProvider.request self messages max_tokens)])%list.
Proof.
  unfold AnthropicProvider.chat, bind, messages_create.
  destruct (on_messages_create _ _ _ _) as [e | response]; [reflexivity |].
  unfold first. destruct (blocks response) as [|[text|] bs]; reflexivity.
Qed.

End AnthropicSplit.

Section AnthropicClaims.

(** C1, as stated, fails: for the single system message whose content is
    [" a"], the newline-join of the system contents is [" a"], but the
    preamble sent to the backend is ["a"], because [chat] strips the
    collected text. *)
Lemma C1_preamble_is_stripped :
  mr_system (AnthropicProvider.request claude only_padded_system 500)
    = Some "a"
  /\ Str.join Str.nl (system_contents only_padded_system) = " a"
  /\ mr_system (AnthropicProvider.request claude only_padded_system 500)
     <> Some (Str.join Str.nl (system_contents only_padded_system)).
Proof. repeat split; [vm_compute; reflexivity .. | vm_compute; congruence]. Qed.

(** C1, amended: for every message sequence, [chat] sends one call whose
    preamble is absent ([None]) when there is no system message, and
    otherwise is the newline-join of the contents of all system messages, in
    their original order, with leading and trailing white space stripped. *)
Theorem C1_preamble self messages max_tokens temperature w :
  exists req,
    trace (snd (AnthropicProvider.chat self messages max_tokens temperature w))
      = (trace w ++ [EvMessagesCreate (anthropic_client self) req])%list
    /\ mr_system req
       = match system_contents messages with
         | [] => None
         | c :: cs => Some (Str.strip (Str.join Str.nl (c :: cs)))
         end.
Proof.
  exists (AnthropicProvider.request self messages max_tokens). split.
  - apply anthropic_chat_trace.
  - apply request_system.
Qed.

(** C2: for every message sequence, the turns [chat] sends to the backend
    are the non-system messages in their original order when there is any,
    and the single placeholder user turn when there is none; the turns sent
    are never empty. *)
Theorem C2_turns self messages max_tokens temperature w :
  exists req,
    trace (snd (AnthropicProvider.chat self messages max_tokens temperature w))
      = (trace w ++ [EvMessagesCreate (anthropic_client self) req])%list
    /\ mr_messages req
       = match non_system messages with
         | [] => [{| role := "user"; content := "Please respond." |}]
         | m :: ms => non_system messages
         end
    /\ mr_messages req <> [].
Proof.
  exists (AnthropicProvider.request self messages max_tokens).
  split; [apply anthropic_chat_trace |].
  rewrite request_messages.
  destruct (non_system messages); split; (reflexivity || discriminate).
Qed.

End AnthropicClaims.

(** ** The Ollama adapter *)

Section OllamaClaims.

Lemma ollama_chat_trace self messages max_tokens temperature w :
  trace (snd (OllamaProvider.chat self messages max_tokens temperature w))
  = (trace w ++
     [EvPost {| pr_url := ollama_base_url self +:+ "/api/chat";
                pr_json := OllamaProvider.payload self messages max_tokens
                             temperature;
                pr_timeout := 120 |}])%list.
Proof.
  unfold OllamaProvider.chat, bind, requests_post.
  destruct (on_post _ _ _) as [e | response]; [reflexivity |].
  unfold raise_for_status.
  destruct (_ && _)%Z; [reflexivity |]. cbn.
  unfold Response_json. destruct (body response) as [data|]; [|reflexivity].
  cbn. unfold getitem.
  destruct data; try reflexivity.
  destruct (dict_get "message" d) as [message|]; [|reflexivity]. cbn.
  destruct message; try reflexivity.
  destruct (dict_get "content" d0) as [text|]; [|reflexivity]. cbn.
  destruct text; reflexivity.
Qed.

(** What [chat] returns, by what the backend answered. *)
Lemma ollama_chat_result self messages max_tokens temperature w :
  fst (OllamaProvider.chat self messages max_tokens temperature w)
  = match on_post (backend w) (trace w)
            {| pr_url := ollama_base_url self +:+ "/api/chat";
               pr_json := OllamaProvider.payload self messages max_tokens
                            temperature;
               pr_timeout := 120 |} with
    | inl e => inl e
    | inr response =>
        if ((400 <=? status_code response)
            && (status_code response <? 600))%Z
        then inl (HTTPError (status_code response))
        else
          match body response with
          | None => inl JSONDecodeError
          | Some (JDict d) =>
              match dict_get "message" d with
              | None => inl (KeyError "message")
              | Some (JDict m) =>
                  match dict_get "content" m with
                  | None => inl (KeyError "content")
                  | Some (JStr s) => inr (Str.strip s)
                  | Some _ => inl AttributeError
                  end
              | Some _ => inl TypeError
              end
          | Some _ => inl TypeError
          end
    end.
Proof.
  unfold OllamaProvider.chat, bind, requests_post.
  destruct (on_post _ _ _) as [e | response]; [reflexivity |].
  unfold raise_for_status.
  destruct (_ && _)%Z; [reflexivity |]. cbn.
  unfold Response_json. destruct (body response) as [data|]; [|reflexivity].
  cbn. unfold getitem.
  destruct data; try reflexivity.
  destruct (dict_get "message" d) as [message|]; [|reflexivity]. cbn.
  destruct message; try reflexivity.
  destruct (dict_get "content" d0) as [text|]; [|reflexivity]. cbn.
  destruct text; reflexivity.
Qed.

(** C8, as stated, fails: a response with status 300, which is not a 2xx
    status, is not a failure when its body carries [message.content]; the
    text is returned. *)
Lemma C8_status_300_returns_text :
  fst (OllamaProvider.chat llama hello 500 0.5%float
         (process [] (backend_answering (reply 300 " hi "))))
  = inr "hi".
Proof. vm_compute. reflexivity. Qed.

(** C8, amended: for every message list, [max_tokens] and [temperature],
    [chat] performs exactly one POST, to [<base_url>/api/chat], with the JSON
    body [{model, messages, stream: false, options: {num_predict,
    temperature}}]. An exception of the transport is raised as it is. A
    response with a 4xx or 5xx status raises [HTTPError]. On a response with
    any other status, every 2xx status among them, whose JSON body holds a
    string at [message.content], [chat] returns that string stripped. *)
Theorem C8_ollama_chat self messages max_tokens temperature w :
  let req :=
    {| pr_url := ollama_base_url self +:+ "/api/chat";
       pr_json :=
         JDict [("model", JStr (ollama_model self));
                ("messages", JList (map Message_json messages));
                ("stream", JBool false);
                ("options", JDict [("num_predict", JInt max_tokens);
                                   ("temperature", JFloat temperature)])];
       pr_timeout := 120 |} in
  let out := OllamaProvider.chat self messages max_tokens temperature w in
  trace (snd out) = (trace w ++ [EvPost req])%list
  /\ (forall e, on_post (backend w) (trace w) req = inl e -> fst out = inl e)
  /\ (forall response,
        on_post (backend w) (trace w) req = inr response ->
        (400 <= status_code response < 600)%Z ->
        fst out = inl (HTTPError (status_code response)))
  /\ (forall response d m s,
        on_post (backend w) (trace w) req = inr response ->
        (200 <= status_code response < 300
         \/ ~ 400 <= status_code response < 600)%Z ->
        body response = Some (JDict d) ->
        dict_get "message" d = Some (JDict m) ->
        dict_get "content" m = Some (JStr s) ->
        fst out = inr (Str.strip s)).
Proof.
  intros req out. subst out.
  split; [apply ollama_chat_trace |].
  rewrite ollama_chat_result.
  change {| pr_url := _; pr_json := _; pr_timeout := _ |} with req.
  repeat split.
  - intros e ->. reflexivity.
  - intros response -> Hs.
    replace ((400 <=? status_code response)
             && (status_code response <? 600))%Z with true; [reflexivity |].
    symmetry. apply andb_true_intro. split; [apply Z.leb_le | apply Z.ltb_lt]; lia.
  - intros response d m s -> Hs Hb Hm Hc.
    replace ((400 <=? status_code response)
             && (status_code response <? 600))%Z with false.
    + now rewrite Hb, Hm, Hc.
    + symmetry. apply andb_false_iff.
      destruct (Z.leb_spec 400 (status_code response));
        destruct (Z.ltb_spec (status_code response) 600); auto; lia.
Qed.

(** A run of C8: a 200 response is stripped, a 404 response raises. *)
Lemma C8_ollama_chat_run :
  fst (OllamaProvider.chat llama hello 500 0.5%float
         (process [] (backend_answering (reply 200 " hi "))))
    = inr "hi"
  /\ fst (OllamaProvider.chat llama hello 500 0.5%float
            (process [] (backend_answering (reply 404 " hi "))))
     = inl (HTTPError 404).
Proof.
  split.
  - apply (proj2 (proj2 (proj2
      (C8_ollama_chat llama hello 500 0.5%float
         (process [] (backend_answering (reply 200 " hi "))))))
      (reply 200 " hi ")
      [("message", JDict [("content", JStr " hi ")])]
      [("content", JStr " hi ")] " hi ");
      [reflexivity | left; cbn; lia | reflexivity ..].
  - apply (proj1 (proj2 (proj2
      (C8_ollama_chat llama hello 500 0.5%float
         (process [] (backend_answering (reply 404 " hi "))))))
      (reply 404 " hi ")); [reflexivity | cbn; lia].
Defined.

End OllamaClaims.

(** ** The factory *)

Section FactoryClaims.

Lemma prefix_append (n s : string) : String.prefix n (n +:+ s) = true.
Proof.
  induction n as [|c n IH]; [destruct s; reflexivity |].
  rewrite append_cons. cbn [String.prefix].
  destruct (ascii_dec c c); [exact IH | contradiction].
Qed.

Lemma contains_prefix (n s : string) :
  String.prefix n s = true -> Str.contains n s = true.
Proof. intros H. destruct s; cbn [Str.contains]; now rewrite H. Qed.

Lemma contains_append_l (n a b : string) :
  Str.contains n b = true -> Str.contains n (a +:+ b) = true.
Proof.
  intros H. induction a as [|c a IH]; [exact H |].
  rewrite append_cons. cbn [Str.contains]. rewrite IH. apply orb_true_r.
Qed.

Lemma trace_log3 a b c w :
  trace (log c (log b (log a w))) = (trace w ++ [a; b; c])%list.
Proof. cbn. now rewrite <- !app_assoc. Qed.


(** The message of the last branch names the kind it was given and lists
    five kinds. *)
Lemma unknown_provider_message_names (kind : string) :
  Str.contains kind (unknown_provider_message kind) = true
  /\ forall k, k ∈ listed ->
       Str.contains k (unknown_provider_message kind) = true.
Proof.
  unfold unknown_provider_message. split.
  - apply contains_append_l, contains_prefix, prefix_append.
  - intros k Hk. do 2 apply contains_append_l.
    unfold listed in Hk.
    repeat (apply elem_of_cons in Hk as [-> | Hk]; [vm_compute; reflexivity |]).
    now apply elem_of_nil in Hk.
Qed.

Ltac factory_run :=
  unfold get_llm_provider, bind, os_getenv, os_getenv_default, ret,
    construct, OpenAIProvider.__init__, VLLMProvider.__init__,
    OpenAICompatibleProvider.__init__, OpenAI;
  cbn [environ log fst snd].

Ltac client_cases :=
  repeat match goal with
  | |- context [if Str.truthy ?o then _ else _] => destruct (Str.truthy o)
  | |- context [if Str.is_empty ?k then _ else _] => destruct (Str.is_empty k)
  end.

Ltac eval_eqb :=
  repeat match goal with
  | |- context [String.eqb ?a ?b] =>
      let r := eval vm_compute in (String.eqb a b) in
      lazymatch r with
      | true => change (String.eqb a b) with true
      | false => change (String.eqb a b) with false
      end
  end; cbn [orb].

(** C3, as stated, fails: the factory recognises the kind [claude] (it
    builds an adapter for it), and the error for an unknown kind does not
    list [claude]. So if [claude] is outside the recognised set the factory
    does not fail on it, and if it is inside, the message does not list the
    recognised set. *)
Lemma C3_claude_recognised_not_listed :
  fst (get_llm_provider
         (process [("LLM_PROVIDER", "claude"); ("ANTHROPIC_API_KEY", "k")]
            offline))
    = inr 0%nat
  /\ fst (get_llm_provider (process [("LLM_PROVIDER", "FOO")] offline))
     = inl (ValueError
         "Unknown LLM provider: foo. Supported: openai, anthropic, ollama, vllm, openai-compatible")
  /\ Str.contains "claude"
       "Unknown LLM provider: foo. Supported: openai, anthropic, ollama, vllm, openai-compatible"
     = false
  /\ Str.contains "FOO"
       "Unknown LLM provider: foo. Supported: openai, anthropic, ollama, vllm, openai-compatible"
     = false.
Proof. repeat split; vm_compute; reflexivity. Qed.

(** C3, amended: for every value of the selector whose lower-case form is
    none of [openai], [anthropic], [claude], [ollama], [vllm] and
    [openai-compatible], the factory raises [ValueError]; the message names
    the value in lower case and lists the kinds [openai], [anthropic],
    [ollama], [vllm] and [openai-compatible]; no object is constructed, and
    the run only reads three configuration values: there is no network
    call. *)
Theorem C3_unknown_kind w v :
  environ w !! "LLM_PROVIDER" = Some v ->
  Str.lower v ∉ accepted ->
  let out := get_llm_provider w in
  exists msg,
    fst out = inl (ValueError msg)
    /\ msg = "Unknown LLM provider: " +:+ Str.lower v
             +:+ ". Supported: openai, anthropic, ollama, vllm, openai-compatible"
    /\ Str.contains (Str.lower v) msg = true
    /\ (forall k, k ∈ listed -> Str.contains k msg = true)
    /\ heap (snd out) = heap w
    /\ trace (snd out) = (trace w ++ config_reads)%list
    /\ Forall (fun e => is_network_call e = false) config_reads.
Proof.
  intros Hv Hn out. subst out.
  exists (unknown_provider_message (Str.lower v)).
  factory_run. rewrite Hv. cbn [default].
  assert (Hk : forall k, k ∈ accepted -> String.eqb (Str.lower v) k = false).
  { intros k Hk. apply String.eqb_neq. intros E. apply Hn. now rewrite E. }
  rewrite !Hk by (unfold accepted; set_solver).
  cbn [orb]. unfold raise. cbn [fst snd].
  destruct (unknown_provider_message_names (Str.lower v)) as [Hc Hl].
  repeat split; auto using trace_log3.
  repeat constructor.
Qed.

(** C3 at the selector [Mistral]. *)
Lemma C3_unknown_kind_witness :
  let w := process [("LLM_PROVIDER", "Mistral")] offline in
  let out := get_llm_provider w in
  exists msg,
    fst out = inl (ValueError msg)
    /\ msg = "Unknown LLM provider: " +:+ Str.lower "Mistral"
             +:+ ". Supported: openai, anthropic, ollama, vllm, openai-compatible"
    /\ Str.contains (Str.lower "Mistral") msg = true
    /\ (forall k, k ∈ listed -> Str.contains k msg = true)
    /\ heap (snd out) = heap w
    /\ trace (snd out) = (trace w ++ config_reads)%list
    /\ Forall (fun e => is_network_call e = false) config_reads.
Proof.
  apply (C3_unknown_kind (process [("LLM_PROVIDER", "Mistral")] offline)
           "Mistral").
  - vm_compute. reflexivity.
  - vm_compute. intros H. repeat (inversion H as [|? ? ? H']; clear H; rename H' into H).
Defined.

(** [accepted] is exactly the set of kinds that do not end in the last
    branch: on an accepted kind the factory never raises the error for an
    unknown kind. *)
Lemma accepted_not_unknown w :
  provider_type w ∈ accepted ->
  fst (get_llm_provider w)
  <> inl (ValueError (unknown_provider_message (provider_type w))).
Proof.
  unfold provider_type, accepted. intros Hk.
  repeat (apply elem_of_cons in Hk as [Hk | Hk];
          [factory_run; rewrite Hk; eval_eqb; cbv beta iota;
           cbn [environ log];
           repeat match goal with
           | |- context [match Str.nonempty ?o with _ => _ end] =>
               destruct (Str.nonempty o)
           end; client_cases; unfold raise, new; cbv beta iota; cbn [fst];
           intros [=] |]).
  now apply elem_of_nil in Hk.
Qed.

(** C4: when the kind is [openai] and [OPENAI_API_KEY] is absent, and when
    the kind is [anthropic] (or its alias [claude]) and [ANTHROPIC_API_KEY]
    is absent, the factory
    raises an error whose message names that variable and not the other
    one; no adapter of any kind is constructed, whatever else the
    environment holds. *)
Theorem C4_missing_credential w :
  let out := get_llm_provider w in
  (provider_type w = "openai" ->
   environ w !! "OPENAI_API_KEY" = None ->
   exists msg,
     fst out = inl (ValueError msg)
     /\ msg = "OPENAI_API_KEY environment variable is required for OpenAI provider"
     /\ Str.contains "OPENAI_API_KEY" msg = true
     /\ Str.contains "ANTHROPIC_API_KEY" msg = false
     /\ heap (snd out) = heap w)
  /\ (provider_type w = "anthropic" \/ provider_type w = "claude" ->
      environ w !! "ANTHROPIC_API_KEY" = None ->
      exists msg,
        fst out = inl (ValueError msg)
        /\ msg = "ANTHROPIC_API_KEY environment variable is required for Anthropic provider"
        /\ Str.contains "ANTHROPIC_API_KEY" msg = true
        /\ Str.contains "OPENAI_API_KEY" msg = false
        /\ heap (snd out) = heap w).
Proof.
  intros out. subst out. unfold provider_type.
  split; [intros Hk Hc | intros [Hk | Hk] Hc];
    factory_run; rewrite Hk; eval_eqb;
    cbv beta iota; cbn [environ log]; rewrite Hc;
    cbn [Str.nonempty]; unfold raise; cbn [fst snd];
    eexists; repeat split; vm_compute; reflexivity.
Qed.

(** C4 in two processes, each holding the credential of the other kind. *)
Lemma C4_missing_credential_witness :
  (let w := process [("LLM_PROVIDER", "OpenAI"); ("ANTHROPIC_API_KEY", "k")]
              offline in
   fst (get_llm_provider w)
   = inl (ValueError
       "OPENAI_API_KEY environment variable is required for OpenAI provider")
   /\ heap (snd (get_llm_provider w)) = [])
  /\ (let w := process [("LLM_PROVIDER", "anthropic"); ("OPENAI_API_KEY", "k")]
                 offline in
      fst (get_llm_provider w)
      = inl (ValueError
          "ANTHROPIC_API_KEY environment variable is required for Anthropic provider")
      /\ heap (snd (get_llm_provider w)) = []).
Proof.
  split.
  - destruct (proj1 (C4_missing_credential
        (process [("LLM_PROVIDER", "OpenAI"); ("ANTHROPIC_API_KEY", "k")]
           offline)))
      as (msg & Hr & -> & _ & _ & Hh);
      [vm_compute; reflexivity | vm_compute; reflexivity |].
    split; assumption.
  - destruct (proj2 (C4_missing_credential
        (process [("LLM_PROVIDER", "anthropic"); ("OPENAI_API_KEY", "k")]
           offline)))
      as (msg & Hr & -> & _ & _ & Hh);
      [left; vm_compute; reflexivity | vm_compute; reflexivity |].
    split; assumption.
Defined.




Lemma rstrip_char_default :
  Str.rstrip_char "/"%char "http://localhost:11434" = "http://localhost:11434".
Proof. vm_compute. reflexivity. Qed.

(** C6: with kind [ollama] the factory always returns a new Ollama adapter,
    whatever else the environment holds: its model is [LLM_MODEL], or
    [llama3.1] when that is absent, and its endpoint is [LLM_BASE_URL]
    without trailing slashes, or [http://localhost:11434] when that is
    absent. The run reads the three configuration values and no
    credential. *)
Theorem C6_ollama_defaults w :
  provider_type w = "ollama" ->
  let out := get_llm_provider w in
  exists p,
    fst out = inr (length (heap w))
    /\ heap (snd out) = (heap w ++ [IsOllama p])%list
    /\ ollama_model p = Str.or_else (environ w !! "LLM_MODEL") "llama3.1"
    /\ ollama_base_url p
       = Str.rstrip_char "/"%char
           (Str.or_else (environ w !! "LLM_BASE_URL") "http://localhost:11434")
    /\ (environ w !! "LLM_MODEL" = None -> ollama_model p = "llama3.1")
    /\ (environ w !! "LLM_BASE_URL" = None ->
        ollama_base_url p = "http://localhost:11434")
    /\ trace (snd out) = (trace w ++ config_reads)%list.
Proof.
  intros Hk out. subst out. unfold provider_type in Hk.
  factory_run. rewrite Hk. eval_eqb. unfold new. cbn [fst snd].
  eexists. split; [reflexivity |]. split; [reflexivity |].
  cbn [ollama_model ollama_base_url OllamaProvider.__init__].
  split; [reflexivity |]. split; [reflexivity |].
  split; [intros ->; reflexivity |].
  split; [intros ->; apply rstrip_char_default |].
  exact (trace_log3 _ _ _ w).
Qed.

(** C6 in a process that sets the selector and nothing else. *)
Lemma C6_ollama_defaults_witness :
  let w := process [("LLM_PROVIDER", "Ollama")] offline in
  let out := get_llm_provider w in
  exists p,
    fst out = inr (length (heap w))
    /\ heap (snd out) = (heap w ++ [IsOllama p])%list
    /\ ollama_model p = Str.or_else (environ w !! "LLM_MODEL") "llama3.1"
    /\ ollama_base_url p
       = Str.rstrip_char "/"%char
           (Str.or_else (environ w !! "LLM_BASE_URL") "http://localhost:11434")
    /\ (environ w !! "LLM_MODEL" = None -> ollama_model p = "llama3.1")
    /\ (environ w !! "LLM_BASE_URL" = None ->
        ollama_base_url p = "http://localhost:11434")
    /\ trace (snd out) = (trace w ++ config_reads)%list.
Proof.
  apply (C6_ollama_defaults (process [("LLM_PROVIDER", "Ollama")] offline)).
  vm_compute. reflexivity.
Defined.

(** C9, as stated, fails: with the selector absent and [OPENAI_API_KEY] set,
    the factory does not fail; it returns a new OpenAI adapter for the
    default model. *)
Lemma C9_absent_selector_builds_openai :
  let w := process [("OPENAI_API_KEY", "sk-test")] offline in
  environ w !! "LLM_PROVIDER" = None
  /\ fst (get_llm_provider w) = inr 0%nat
  /\ heap (snd (get_llm_provider w))
     = [IsOpenAI {| openai_model := "gpt-4o";
                    openai_client := {| oa_api_key := "sk-test";
                                        oa_base_url := None |} |}].
Proof. repeat split; vm_compute; reflexivity. Qed.

(** The factory reads the environment only at its five keys. *)
Lemma factory_reads w w' :
  backend w' = backend w -> heap w' = heap w -> trace w' = trace w ->
  provider_type w' = provider_type w ->
  environ w' !! "LLM_MODEL" = environ w !! "LLM_MODEL" ->
  environ w' !! "LLM_BASE_URL" = environ w !! "LLM_BASE_URL" ->
  environ w' !! "OPENAI_API_KEY" = environ w !! "OPENAI_API_KEY" ->
  environ w' !! "ANTHROPIC_API_KEY" = environ w !! "ANTHROPIC_API_KEY" ->
  fst (get_llm_provider w') = fst (get_llm_provider w)
  /\ heap (snd (get_llm_provider w')) = heap (snd (get_llm_provider w))
  /\ trace (snd (get_llm_provider w')) = trace (snd (get_llm_provider w)).
Proof.
  unfold provider_type. intros Hb Hh Ht Hk Hm Hu Ho Ha.
  factory_run. rewrite Hk, Hm, Hu.
  repeat match goal with
  | |- context [if ?b then _ else _] => destruct b
  end; cbv beta iota; cbn [environ log]; rewrite ?Ho, ?Ha;
  repeat match goal with
  | |- context [match Str.nonempty ?o with _ => _ end] =>
      destruct (Str.nonempty o)
  end; cbv beta iota; cbn [environ log]; rewrite ?Ho; client_cases;
  unfold raise, new; cbv beta iota;
  cbn [fst snd heap trace alloc log environ]; rewrite ?Hh, ?Ht; auto.
Qed.

(** Two selectors with the same lower-case form are the same to the
    factory. *)
Lemma factory_setenv_selector w v v' :
  Str.lower v' = Str.lower v ->
  let a := get_llm_provider (setenv "LLM_PROVIDER" v' w) in
  let b := get_llm_provider (setenv "LLM_PROVIDER" v w) in
  fst a = fst b /\ heap (snd a) = heap (snd b) /\ trace (snd a) = trace (snd b).
Proof.
  intros Hl a b. subst a b.
  apply factory_reads; try reflexivity; unfold provider_type, setenv;
    cbn [environ].
  - now rewrite !lookup_insert_eq.
  - now rewrite !lookup_insert_ne.
  - now rewrite !lookup_insert_ne.
  - now rewrite !lookup_insert_ne.
  - now rewrite !lookup_insert_ne.
Qed.

(** C9, amended: the selector is optional. When it is absent the factory
    does exactly what it does when the selector is [openai]: the same
    result or error, the same object constructed, the same reads. *)
Theorem C9_absent_selector_is_openai w :
  environ w !! "LLM_PROVIDER" = None ->
  let a := get_llm_provider w in
  let b := get_llm_provider (setenv "LLM_PROVIDER" "openai" w) in
  fst a = fst b /\ heap (snd a) = heap (snd b) /\ trace (snd a) = trace (snd b).
Proof.
  intros Hn a b. subst a b.
  apply factory_reads; try reflexivity; unfold provider_type, setenv;
    cbn [environ].
  - now rewrite Hn, lookup_insert_eq.
  - now rewrite lookup_insert_ne.
  - now rewrite lookup_insert_ne.
  - now rewrite lookup_insert_ne.
  - now rewrite lookup_insert_ne.
Qed.

(** C9 in a process that sets a credential and a model, and no selector. *)
Lemma C9_absent_selector_is_openai_witness :
  let w := process [("OPENAI_API_KEY", "sk-test"); ("LLM_MODEL", "gpt-4.1")]
             offline in
  let a := get_llm_provider w in
  let b := get_llm_provider (setenv "LLM_PROVIDER" "openai" w) in
  fst a = fst b /\ heap (snd a) = heap (snd b) /\ trace (snd a) = trace (snd b).
Proof.
  apply (C9_absent_selector_is_openai
           (process [("OPENAI_API_KEY", "sk-test"); ("LLM_MODEL", "gpt-4.1")]
              offline)).
  vm_compute. reflexivity.
Defined.

(** The second branch of the factory, taken for [anthropic] and for
    [claude] alike. *)
Lemma factory_anthropic_branch w :
  provider_type w = "anthropic" \/ provider_type w = "claude" ->
  get_llm_provider w
  = let w' := log (EvGetenv "ANTHROPIC_API_KEY")
                (log (EvGetenv "LLM_BASE_URL")
                   (log (EvGetenv "LLM_MODEL")
                      (log (EvGetenv "LLM_PROVIDER") w))) in
    match Str.nonempty (environ w !! "ANTHROPIC_API_KEY") with
    | None =>
        (inl (ValueError
           "ANTHROPIC_API_KEY environment variable is required for Anthropic provider"),
         w')
    | Some key =>
        (inr (length (heap w)),
         alloc (IsAnthropic
                  (AnthropicProvider.__init__ key
                     (Str.or_else (environ w !! "LLM_MODEL")
                        "claude-sonnet-4-20250514"))) w')
    end.
Proof.
  unfold provider_type. intros [Hk | Hk]; factory_run; rewrite Hk; eval_eqb;
    cbv beta iota zeta; cbn [environ log];
    destruct (Str.nonempty (environ w !! "ANTHROPIC_API_KEY")); reflexivity.
Qed.

(** C10: every value of the selector whose lower-case form is [claude]
    makes the factory do exactly what the selector [anthropic] makes it do:
    the same result or error, the same object constructed, the same reads;
    with [ANTHROPIC_API_KEY] set, that object is an Anthropic adapter. Yet
    the error for an unknown kind lists [anthropic] and does not mention
    [claude]. *)
Theorem C10_claude_alias w v :
  Str.lower v = "claude" ->
  let a := get_llm_provider (setenv "LLM_PROVIDER" v w) in
  let b := get_llm_provider (setenv "LLM_PROVIDER" "anthropic" w) in
  fst a = fst b /\ heap (snd a) = heap (snd b) /\ trace (snd a) = trace (snd b)
  /\ (forall key, environ w !! "ANTHROPIC_API_KEY" = Some key -> key <> "" ->
      fst a = inr (length (heap w))
      /\ heap (snd a)
         = (heap w ++
            [IsAnthropic
               {| anthropic_model :=
                    Str.or_else (environ w !! "LLM_MODEL")
                      "claude-sonnet-4-20250514";
                  anthropic_client := {| an_api_key := key |} |}])%list)
  /\ ("claude" ∈ accepted) /\ ("claude" ∉ listed)
  /\ Str.contains "anthropic" (unknown_provider_message "") = true
  /\ Str.contains "claude" (unknown_provider_message "") = false.
Proof.
  intros Hl a b. subst a b.
  rewrite (factory_anthropic_branch (setenv "LLM_PROVIDER" v w))
    by (right; unfold provider_type, setenv; cbn [environ];
        now rewrite lookup_insert_eq).
  rewrite (factory_anthropic_branch (setenv "LLM_PROVIDER" "anthropic" w))
    by (left; unfold provider_type, setenv; cbn [environ];
        now rewrite lookup_insert_eq).
  cbv zeta.
  assert (E : forall u k, "LLM_PROVIDER" <> k ->
                environ (setenv "LLM_PROVIDER" u w) !! k = environ w !! k).
  { intros u k Hk. unfold setenv. cbn [environ]. now apply lookup_insert_ne. }
  rewrite !E by discriminate.
  split; [| split; [| split; [| split; [| split; [| split; [| split]]]]]].
  1-3: destruct (Str.nonempty (environ w !! "ANTHROPIC_API_KEY"));
    reflexivity.
  - intros key Hkey Hne. rewrite Hkey.
    destruct key as [|c key]; [congruence |]. cbn [Str.nonempty Str.is_empty].
    split; reflexivity.
  - unfold accepted. set_solver.
  - unfold listed. intros H.
    repeat (apply elem_of_cons in H as [H | H]; [discriminate |]).
    now apply elem_of_nil in H.
  - vm_compute. reflexivity.
  - vm_compute. reflexivity.
Qed.

(** C10 at the selector [Claude]. *)
Lemma C10_claude_alias_witness :
  let w := process [("ANTHROPIC_API_KEY", "k")] offline in
  let a := get_llm_provider (setenv "LLM_PROVIDER" "Claude" w) in
  let b := get_llm_provider (setenv "LLM_PROVIDER" "anthropic" w) in
  fst a = fst b /\ heap (snd a) = heap (snd b) /\ trace (snd a) = trace (snd b)
  /\ (forall key, environ w !! "ANTHROPIC_API_KEY" = Some key -> key <> "" ->
      fst a = inr (length (heap w))
      /\ heap (snd a)
         = (heap w ++
            [IsAnthropic
               {| anthropic_model :=
                    Str.or_else (environ w !! "LLM_MODEL")
                      "claude-sonnet-4-20250514";
                  anthropic_client := {| an_api_key := key |} |}])%list)
  /\ ("claude" ∈ accepted) /\ ("claude" ∉ listed)
  /\ Str.contains "anthropic" (unknown_provider_message "") = true
  /\ Str.contains "claude" (unknown_provider_message "") = false.
Proof.
  apply (C10_claude_alias (process [("ANTHROPIC_API_KEY", "k")] offline)
           "Claude").
  vm_compute. reflexivity.
Defined.

End FactoryClaims.

(** ** The singleton accessor *)

Section Stable.

Context (R : relation World) `{!PreOrder R}.
Hypothesis R_log : forall e w, R w (log e w).
Hypothesis R_alloc : forall o w, R w (alloc o w).
















End Stable.

Section SingletonClaims.

#[local] Instance same_cell_preorder : PreOrder same_cell.
Proof.
  split; [intros w; reflexivity |].
  intros a b c Hab Hbc. unfold same_cell in *. congruence.
Qed.

#[local] Instance heap_grows_preorder : PreOrder heap_grows.
Proof.
  split; [intros w; unfold heap_grows; reflexivity |].
  intros a b c Hab Hbc. unfold heap_grows in *.
  transitivity (heap b); assumption.
Qed.





(** Once the global holds a reference, [get_provider] returns it and does
    nothing else. *)
Lemma get_provider_cached w p :
  _provider w = Some p -> get_provider w = (inr p, w).
Proof.
  intros H. unfold get_provider, bind, load_provider. cbn. now rewrite H.
Qed.

(** On an empty global, [get_provider] is the factory followed by the
    assignment. *)
Lemma get_provider_first w :
  _provider w = None ->
  get_provider w
  = match get_llm_provider w with
    | (inl e, w') => (inl e, w')
    | (inr p, w') => (inr p, set_provider p w')
    end.
Proof.
  intros H. unfold get_provider, bind, load_provider. cbn. rewrite H.
  destruct (get_llm_provider w) as [[e | p] w']; reflexivity.
Qed.






(** A reference the factory returns is new, and names the object it built. *)
Lemma factory_returns_new w p w' :
  get_llm_provider w = (inr p, w') ->
  p = length (heap w) /\ exists o, heap w' = (heap w ++ [o])%list.
Proof.
  unfold get_llm_provider, bind, os_getenv, os_getenv_default, ret,
    construct, OpenAIProvider.__init__, VLLMProvider.__init__,
    OpenAICompatibleProvider.__init__, OpenAI.
  cbn [environ log fst snd].
  repeat match goal with
  | |- context [if ?b then _ else _] => destruct b
  end; cbv beta iota; cbn [environ log];
  repeat match goal with
  | |- context [match Str.nonempty ?o with _ => _ end] =>
      destruct (Str.nonempty o)
  end; cbv beta iota; cbn [environ log];
  repeat match goal with
  | |- context [if ?b then _ else _] => destruct b
  end; unfold raise, new; cbv beta iota; intros [= <- <-];
  (split; [reflexivity | eexists; reflexivity]).
Qed.




End SingletonClaims.

(** * Further properties of the adapters *)

Section AdapterFacts.

(** A run of the body the OpenAI-style adapters share. *)
Lemma completions_chat_run model client messages max_tokens temperature w :
  completions_chat model client messages max_tokens temperature w
  = let req := {| cr_model := model; cr_messages := messages;
                  cr_max_tokens := max_tokens;
                  cr_temperature := temperature |} in
    (match on_completions_create (backend w) (trace w) client req with
     | inl e => inl e
     | inr response =>
         match choices response with
         | [] => inl IndexError
         | None :: _ => inl AttributeError
         | Some text :: _ => inr (Str.strip text)
         end
     end,
     log (EvCompletionsCreate client req) w).
Proof.
  unfold completions_chat, bind, completions_create. cbv zeta.
  destruct (on_completions_create _ _ _ _) as [e | response]; [reflexivity |].
  unfold first. destruct (choices response) as [|[text|] cs]; reflexivity.
Qed.

(** A run of the Anthropic adapter's [chat]. *)
Lemma anthropic_chat_run self messages max_tokens temperature w :
  AnthropicProvider.chat self messages max_tokens temperature w
  = let req := AnthropicProvider.request self messages max_tokens in
    (match on_messages_create (backend w) (trace w)
             (anthropic_client self) req with
     | inl e => inl e
     | inr response =>
         match blocks response with
         | [] => inl IndexError
         | OtherBlock :: _ => inl AttributeError
         | TextBlock text :: _ => inr (Str.strip text)
         end
     end,
     log (EvMessagesCreate (anthropic_client self) req) w).
Proof.
  unfold AnthropicProvider.chat, bind, messages_create. cbv zeta.
  destruct (on_messages_create _ _ _ _) as [e | response]; [reflexivity |].
  unfold first. destruct (blocks response) as [|[text|] bs]; reflexivity.
Qed.

(** The model and the client of an OpenAI-style adapter. *)
Lemma openai_style_chat (o : LLMProvider) messages max_tokens temperature w :
  match o with
  | IsOpenAI p =>
      chat o messages max_tokens temperature w
      = completions_chat (openai_model p) (openai_client p) messages
          max_tokens temperature w
  | IsVLLM p =>
      chat o messages max_tokens temperature w
      = completions_chat (vllm_model p) (vllm_client p) messages
          max_tokens temperature w
  | IsOpenAICompatible p =>
      chat o messages max_tokens temperature w
      = completions_chat (compat_model p) (compat_client p) messages
          max_tokens temperature w
  | _ => True
  end.
Proof. destruct o; first [reflexivity | exact I]. Qed.

Lemma float_half_lt_one : 0.5%float <> 1%float.
Proof.
  intros H. apply (f_equal (fun x => PrimFloat.ltb x 1%float)) in H.
  vm_compute in H. discriminate.
Qed.

(** X1: the Anthropic adapter never uses [temperature]: two calls that
    differ only in it are the same computation. It is the only adapter for
    which this holds: every other adapter sends the temperature to its
    backend, so two different temperatures leave different traces. *)
Theorem X1_only_anthropic_drops_temperature
    (o : LLMProvider) messages max_tokens t1 t2 w :
  t1 <> t2 ->
  (forall p, o = IsAnthropic p ->
     chat o messages max_tokens t1 w = chat o messages max_tokens t2 w)
  /\ ((forall p, o <> IsAnthropic p) ->
      trace (snd (chat o messages max_tokens t1 w))
      <> trace (snd (chat o messages max_tokens t2 w))).
Proof.
  intros Ht. split.
  - intros p ->. reflexivity.
  - intros Hno E. destruct o as [p | p | p | p | p].
    + pose proof (openai_style_chat (IsOpenAI p) messages max_tokens t1 w) as H1.
      pose proof (openai_style_chat (IsOpenAI p) messages max_tokens t2 w) as H2.
      cbv beta iota in H1, H2. rewrite H1, H2, !completions_chat_run in E.
      cbv zeta in E. cbn [snd log trace] in E.
      apply app_inv_head in E. injection E as E. contradiction.
    + now apply (Hno p).
    + change (chat (IsOllama p)) with (OllamaProvider.chat p) in E.
      rewrite !ollama_chat_trace in E.
      apply app_inv_head in E. injection E as E. contradiction.
    + pose proof (openai_style_chat (IsVLLM p) messages max_tokens t1 w) as H1.
      pose proof (openai_style_chat (IsVLLM p) messages max_tokens t2 w) as H2.
      cbv beta iota in H1, H2. rewrite H1, H2, !completions_chat_run in E.
      cbv zeta in E. cbn [snd log trace] in E.
      apply app_inv_head in E. injection E as E. contradiction.
    + pose proof (openai_style_chat (IsOpenAICompatible p) messages
                    max_tokens t1 w) as H1.
      pose proof (openai_style_chat (IsOpenAICompatible p) messages
                    max_tokens t2 w) as H2.
      cbv beta iota in H1, H2. rewrite H1, H2, !completions_chat_run in E.
      cbv zeta in E. cbn [snd log trace] in E.
      apply app_inv_head in E. injection E as E. contradiction.
Qed.

(** X1 for the Anthropic and the Ollama adapter of the examples. *)
Lemma X1_only_anthropic_drops_temperature_witness :
  let w := process [] offline in
  chat (IsAnthropic claude) hello 500 0.5%float w
    = chat (IsAnthropic claude) hello 500 1%float w
  /\ trace (snd (chat (IsOllama llama) hello 500 0.5%float w))
     <> trace (snd (chat (IsOllama llama) hello 500 1%float w)).
Proof.
  intros w. split.
  - apply (proj1 (X1_only_anthropic_drops_temperature (IsAnthropic claude)
                    hello 500 0.5%float 1%float w float_half_lt_one) claude).
    reflexivity.
  - apply (proj2 (X1_only_anthropic_drops_temperature (IsOllama llama)
                    hello 500 0.5%float 1%float w float_half_lt_one)).
    intros p. discriminate.
Defined.

(** The state every adapter's [chat] leaves: the state it found, with one
    event more. *)
Lemma chat_logs_once (o : LLMProvider) messages max_tokens temperature w :
  exists ev,
    is_network_call ev = true
    /\ snd (chat o messages max_tokens temperature w) = log ev w.
Proof.
  destruct o as [p | p | p | p | p].
  - pose proof (openai_style_chat (IsOpenAI p) messages max_tokens
                  temperature w) as H. cbv beta iota in H.
    rewrite H, completions_chat_run. eexists. split; [| reflexivity].
    reflexivity.
  - change (chat (IsAnthropic p)) with (AnthropicProvider.chat p).
    rewrite anthropic_chat_run. eexists. split; [| reflexivity]. reflexivity.
  - change (chat (IsOllama p)) with (OllamaProvider.chat p).
    unfold OllamaProvider.chat, bind, requests_post.
    eexists (EvPost _). split; [reflexivity |].
    destruct (on_post _ _ _) as [e | response]; [reflexivity |].
    unfold raise_for_status.
    destruct (_ && _)%Z; [reflexivity |]. cbn.
    unfold Response_json. destruct (body response) as [data|]; [|reflexivity].
    cbn. unfold getitem.
    destruct data; try reflexivity.
    destruct (dict_get "message" d) as [message|]; [|reflexivity]. cbn.
    destruct message; try reflexivity.
    destruct (dict_get "content" d0) as [text|]; [|reflexivity]. cbn.
    destruct text; reflexivity.
  - pose proof (openai_style_chat (IsVLLM p) messages max_tokens
                  temperature w) as H. cbv beta iota in H.
    rewrite H, completions_chat_run. eexists. split; [| reflexivity].
    reflexivity.
  - pose proof (openai_style_chat (IsOpenAICompatible p) messages max_tokens
                  temperature w) as H. cbv beta iota in H.
    rewrite H, completions_chat_run. eexists. split; [| reflexivity].
    reflexivity.
Qed.

(** X2: whichever adapter it is, and whether it returns or raises, [chat]
    makes exactly one call to its backend and does nothing else: the trace
    grows by one network event, and the environment, the store of objects
    and the global [_provider] are as before. There is no retry and no
    second request. *)
Theorem X2_chat_calls_backend_once
    (o : LLMProvider) messages max_tokens temperature w :
  let w' := snd (chat o messages max_tokens temperature w) in
  (exists ev, is_network_call ev = true /\ trace w' = (trace w ++ [ev])%list)
  /\ environ w' = environ w
  /\ heap w' = heap w
  /\ _provider w' = _provider w.
Proof.
  intros w'. subst w'.
  destruct (chat_logs_once o messages max_tokens temperature w)
    as (ev & Hn & ->).
  split; [exists ev; split; [exact Hn | reflexivity] |].
  repeat split.
Qed.

Lemma lstrip_head (s : string) :
  match Str.lstrip s with
  | EmptyString => True
  | String c _ => Str.isspace c = false
  end.
Proof.
  induction s as [|c s IH]; [exact I |].
  cbn [Str.lstrip]. destruct (Str.isspace c) eqn:E; [exact IH | exact E].
Qed.

Lemma rstrip_idempotent (s : string) : Str.rstrip (Str.rstrip s) = Str.rstrip s.
Proof.
  induction s as [|c s IH]; [reflexivity |].
  cbn [Str.rstrip].
  destruct (Str.is_empty (Str.rstrip s) && Str.isspace c) eqn:E;
    [reflexivity |].
  cbn [Str.rstrip]. rewrite IH, E. reflexivity.
Qed.

(** What [strip] returns has no white space at either end: stripping it
    again changes nothing. *)
Lemma strip_idempotent (s : string) : Str.strip (Str.strip s) = Str.strip s.
Proof.
  unfold Str.strip. pose proof (lstrip_head s) as H.
  destruct (Str.lstrip s) as [|c t]; [reflexivity |].
  cbn [Str.rstrip]. rewrite H, andb_false_r.
  cbn [Str.lstrip]. rewrite H.
  change (Str.rstrip (String c (Str.rstrip t)))
    with (if Str.is_empty (Str.rstrip (Str.rstrip t)) && Str.isspace c
          then EmptyString else String c (Str.rstrip (Str.rstrip t))).
  rewrite H, andb_false_r. now rewrite rstrip_idempotent.
Qed.

(** What [chat] returns, for every adapter, is some text stripped. *)
Lemma chat_returns_stripped (o : LLMProvider) messages max_tokens temperature
    w text :
  fst (chat o messages max_tokens temperature w) = inr text ->
  exists raw, text = Str.strip raw.
Proof.
  destruct o as [p | p | p | p | p].
  - pose proof (openai_style_chat (IsOpenAI p) messages max_tokens
                  temperature w) as H. cbv beta iota in H.
    rewrite H, completions_chat_run. cbv zeta. cbn [fst].
    destruct (on_completions_create _ _ _ _) as [e | r]; [discriminate |].
    destruct (choices r) as [|[raw|] cs]; try discriminate.
    intros [= <-]. now exists raw.
  - change (chat (IsAnthropic p)) with (AnthropicProvider.chat p).
    rewrite anthropic_chat_run. cbv zeta. cbn [fst].
    destruct (on_messages_create _ _ _ _) as [e | r]; [discriminate |].
    destruct (blocks r) as [|[raw|] bs]; try discriminate.
    intros [= <-]. now exists raw.
  - change (chat (IsOllama p)) with (OllamaProvider.chat p).
    rewrite ollama_chat_result.
    destruct (on_post _ _ _) as [e | r]; [discriminate |].
    destruct (_ && _)%Z; [discriminate |].
    destruct (body r) as [[| | | | |l|d]|]; try discriminate.
    destruct (dict_get "message" d) as [[| | | | |l|m]|]; try discriminate.
    destruct (dict_get "content" m) as [[| | | |raw|l|d']|]; try discriminate.
    intros [= <-]. now exists raw.
  - pose proof (openai_style_chat (IsVLLM p) messages max_tokens
                  temperature w) as H. cbv beta iota in H.
    rewrite H, completions_chat_run. cbv zeta. cbn [fst].
    destruct (on_completions_create _ _ _ _) as [e | r]; [discriminate |].
    destruct (choices r) as [|[raw|] cs]; try discriminate.
    intros [= <-]. now exists raw.
  - pose proof (openai_style_chat (IsOpenAICompatible p) messages max_tokens
                  temperature w) as H. cbv beta iota in H.
    rewrite H, completions_chat_run. cbv zeta. cbn [fst].
    destruct (on_completions_create _ _ _ _) as [e | r]; [discriminate |].
    destruct (choices r) as [|[raw|] cs]; try discriminate.
    intros [= <-]. now exists raw.
Qed.

(** X3: the text [chat] returns, for every adapter and every answer of the
    backend, has no leading and no trailing white space: stripping it
    again, on the left, on the right or on both sides, gives the same
    text. *)
Theorem X3_chat_text_is_normalised
    (o : LLMProvider) messages max_tokens temperature w text :
  fst (chat o messages max_tokens temperature w) = inr text ->
  Str.strip text = text
  /\ Str.lstrip text = text
  /\ Str.rstrip text = text.
Proof.
  intros H.
  destruct (chat_returns_stripped o messages max_tokens temperature w text H)
    as [raw ->].
  split; [apply strip_idempotent |]. split.
  - unfold Str.strip. pose proof (lstrip_head raw) as Hh.
    destruct (Str.lstrip raw) as [|c t]; [reflexivity |].
    cbn [Str.rstrip]. rewrite Hh, andb_false_r. cbn [Str.lstrip].
    now rewrite Hh.
  - unfold Str.strip. apply rstrip_idempotent.
Qed.

(** X3 for an Ollama backend that answers with padded text. *)
Lemma X3_chat_text_is_normalised_witness :
  Str.strip "hi" = "hi" /\ Str.lstrip "hi" = "hi" /\ Str.rstrip "hi" = "hi".
Proof.
  apply (X3_chat_text_is_normalised (IsOllama llama) hello 500 0.5%float
           (process [] (backend_answering (reply 200 "  hi ")))).
  vm_compute. reflexivity.
Defined.

(** X4: the Ollama adapter returns text only from a response whose status
    is not 4xx or 5xx and whose JSON body is an object holding an object at
    [message] holding a string at [content]; the text is that string
    stripped. In every other case [chat] raises. *)
Theorem X4_ollama_text_only_from_content self messages max_tokens temperature
    w text :
  let req :=
    {| pr_url := ollama_base_url self +:+ "/api/chat";
       pr_json := OllamaProvider.payload self messages max_tokens temperature;
       pr_timeout := 120 |} in
  fst (OllamaProvider.chat self messages max_tokens temperature w) = inr text
  <-> exists response d m s,
        on_post (backend w) (trace w) req = inr response
        /\ ~ (400 <= status_code response < 600)%Z
        /\ body response = Some (JDict d)
        /\ dict_get "message" d = Some (JDict m)
        /\ dict_get "content" m = Some (JStr s)
        /\ text = Str.strip s.
Proof.
  intros req. rewrite ollama_chat_result. fold req. split.
  - destruct (on_post _ _ _) as [e | r]; [discriminate |].
    destruct ((400 <=? status_code r) && (status_code r <? 600))%Z eqn:Hs;
      [discriminate |].
    destruct (body r) as [[| | | | |l|d]|] eqn:Hb; try discriminate.
    destruct (dict_get "message" d) as [[| | | | |l|m]|] eqn:Hm;
      try discriminate.
    destruct (dict_get "content" m) as [[| | | |s|l|d']|] eqn:Hc;
      try discriminate.
    intros [= <-]. exists r, d, m, s. repeat split; auto.
    intros [H1 H2]. apply andb_false_iff in Hs as [Hs | Hs].
    + apply Z.leb_gt in Hs. lia.
    + apply Z.ltb_ge in Hs. lia.
  - intros (r & d & m & s & -> & Hs & -> & -> & -> & ->).
    replace ((400 <=? status_code r) && (status_code r <? 600))%Z with false;
      [reflexivity |].
    symmetry. apply andb_false_iff.
    destruct (Z.leb_spec 400 (status_code r));
      destruct (Z.ltb_spec (status_code r) 600); auto; lia.
Qed.

(** X5: the three OpenAI-style adapters ([OpenAIProvider], [VLLMProvider],
    [OpenAICompatibleProvider]) send the messages as they are, system
    messages included and the empty list too, together with the model of
    the adapter, [max_tokens] and [temperature]. They return the content of
    the first choice stripped; an answer without choices raises
    [IndexError], a first choice without content raises [AttributeError],
    and an exception of the client is raised as it is. *)
Theorem X5_openai_style_chat (o : LLMProvider) client messages max_tokens
    temperature w :
  completions_client o = Some client ->
  let req := {| cr_model := model_of o; cr_messages := messages;
                cr_max_tokens := max_tokens;
                cr_temperature := temperature |} in
  let out := chat o messages max_tokens temperature w in
  trace (snd out) = (trace w ++ [EvCompletionsCreate client req])%list
  /\ fst out
     = match on_completions_create (backend w) (trace w) client req with
       | inl e => inl e
       | inr response =>
           match choices response with
           | [] => inl IndexError
           | None :: _ => inl AttributeError
           | Some text :: _ => inr (Str.strip text)
           end
       end.
Proof.
  intros Hc req out. subst req out.
  pose proof (openai_style_chat o messages max_tokens temperature w) as H.
  destruct o as [p | p | p | p | p]; try discriminate;
    injection Hc as <-; rewrite H, completions_chat_run;
    split; reflexivity.
Qed.

(** X5 for an OpenAI adapter whose backend answers without choices. *)
Lemma X5_openai_style_chat_witness :
  let o := IsOpenAI {| openai_model := "gpt-4o";
                       openai_client := {| oa_api_key := "sk";
                                           oa_base_url := None |} |} in
  let w := process []
    {| on_post := fun _ _ => inl (BackendError "no route");
       on_messages_create := fun _ _ _ => inl (BackendError "no route");
       on_completions_create := fun _ _ _ => inr {| choices := [] |} |} in
  trace (snd (chat o [] 500 0.5%float w))
    = [EvCompletionsCreate {| oa_api_key := "sk"; oa_base_url := None |}
         {| cr_model := "gpt-4o"; cr_messages := [];
            cr_max_tokens := 500; cr_temperature := 0.5%float |}]
  /\ fst (chat o [] 500 0.5%float w) = inl IndexError.
Proof.
  intros o w.
  apply (X5_openai_style_chat o {| oa_api_key := "sk"; oa_base_url := None |}
           [] 500 0.5%float w).
  reflexivity.
Defined.

Lemma rstrip_char_app (x : ascii) (s : string) :
  Str.rstrip_char x (s +:+ String x EmptyString) = Str.rstrip_char x s.
Proof.
  induction s as [|c s IH].
  - rewrite append_nil_l. cbn [Str.rstrip_char Str.is_empty andb].
    now rewrite Ascii.eqb_refl.
  - rewrite append_cons. cbn [Str.rstrip_char]. now rewrite IH.
Qed.

Lemma rstrip_char_no_trailing (x : ascii) (s t : string) :
  Str.rstrip_char x s <> t +:+ String x EmptyString.
Proof.
  revert t. induction s as [|c s IH]; intros t.
  - destruct t; discriminate.
  - cbn [Str.rstrip_char].
    destruct (Str.is_empty (Str.rstrip_char x s) && Ascii.eqb c x) eqn:E.
    + destruct t; discriminate.
    + destruct t as [|c' t].
      * intros [= -> Hr]. rewrite Hr, Ascii.eqb_refl in E. discriminate.
      * rewrite append_cons. intros [= _ Hr]. now apply (IH t).
Qed.

(** X6: trailing slashes of the base URL never matter to the Ollama
    adapter: the adapter built for [url/] is the adapter built for [url],
    the endpoint it stores never ends with a slash, and so the URL of the
    POST is the stored endpoint followed by [/api/chat], never with a
    doubled slash at the joint. *)
Theorem X6_ollama_trailing_slash (model url : string) :
  OllamaProvider.__init__ model (url +:+ "/") = OllamaProvider.__init__ model url
  /\ (forall t, ollama_base_url (OllamaProvider.__init__ model url)
                <> t +:+ "/")
  /\ (forall messages max_tokens temperature w,
        exists body,
          trace (snd (OllamaProvider.chat (OllamaProvider.__init__ model url)
                        messages max_tokens temperature w))
          = (trace w ++
             [EvPost {| pr_url := Str.rstrip_char "/"%char url +:+ "/api/chat";
                        pr_json := body; pr_timeout := 120 |}])%list).
Proof.
  split; [| split].
  - unfold OllamaProvider.__init__. f_equal. apply rstrip_char_app.
  - intros t. apply rstrip_char_no_trailing.
  - intros messages max_tokens temperature w. eexists.
    apply ollama_chat_trace.
Qed.

End AdapterFacts.

(** * Further properties of the factory *)

Section FactoryFacts.

Ltac factory_open :=
  unfold get_llm_provider, bind, os_getenv, os_getenv_default, ret,
    construct, OpenAIProvider.__init__, VLLMProvider.__init__,
    OpenAICompatibleProvider.__init__, OpenAI;
  cbn [environ log fst snd].

Ltac factory_cases :=
  repeat match goal with
  | |- context [if ?b then _ else _] => destruct b
  end; cbv beta iota; cbn [environ log];
  repeat match goal with
  | |- context [match Str.nonempty ?o with _ => _ end] =>
      destruct (Str.nonempty o)
  end; cbv beta iota; cbn [environ log];
  repeat match goal with
  | |- context [if ?b then _ else _] => destruct b
  end; unfold raise, new; cbv beta iota.

Ltac settle_eqb :=
  repeat match goal with
  | |- context [String.eqb ?a ?b] =>
      let r := eval vm_compute in (String.eqb a b) in
      lazymatch r with
      | true => change (String.eqb a b) with true
      | false => change (String.eqb a b) with false
      end
  end; cbn [orb]; cbv beta iota.

(** X7: the factory works offline and in place, for every configuration
    and on every path: it changes neither the environment nor the global
    [_provider] nor the backends, and all it adds to the trace is reads of
    the environment: the three configuration values, then at most one
    credential. It never calls a backend. *)
Theorem X7_factory_is_offline w :
  let w' := snd (get_llm_provider w) in
  environ w' = environ w
  /\ _provider w' = _provider w
  /\ backend w' = backend w
  /\ exists credential,
       trace w' = (trace w ++ config_reads ++ map EvGetenv credential)%list
       /\ (credential = [] \/ credential = ["OPENAI_API_KEY"]
           \/ credential = ["ANTHROPIC_API_KEY"])
       /\ Forall (fun e => is_network_call e = false)
            (config_reads ++ map EvGetenv credential).
Proof.
  intros w'. subst w'. factory_open. factory_cases; cbn [fst snd alloc log];
    cbn [environ _provider backend trace];
    (split; [reflexivity |]); (split; [reflexivity |]);
    (split; [reflexivity |]).
  all: first
    [ exists []; split;
        [cbn; now rewrite <- !app_assoc | split; [auto | repeat constructor]]
    | exists ["OPENAI_API_KEY"]; split;
        [cbn; now rewrite <- !app_assoc | split; [auto | repeat constructor]]
    | exists ["ANTHROPIC_API_KEY"]; split;
        [cbn; now rewrite <- !app_assoc | split; [auto | repeat constructor]] ].
Qed.

(** X8: a run of the factory that returns has built exactly one adapter,
    appended to the store, and returns its reference; a run that raises,
    whatever it raises, leaves the store as it was: no adapter is left
    behind by a failed run. *)
Theorem X8_factory_builds_one_or_raises w :
  match get_llm_provider w with
  | (inr p, w') =>
      p = length (heap w)
      /\ (exists o, heap w' = (heap w ++ [o])%list /\ heap w' !! p = Some o)
  | (inl e, w') => heap w' = heap w
  end.
Proof.
  factory_open. factory_cases; cbn [fst snd alloc log heap].
  all: first
    [ reflexivity
    | split; [reflexivity |]; eexists; split; [reflexivity |];
      rewrite lookup_app_r by reflexivity;
      now rewrite Nat.sub_diag ].
Qed.

Lemma factory_outcome_eq w w' :
  fst (get_llm_provider w') = fst (get_llm_provider w)
  /\ heap (snd (get_llm_provider w')) = heap (snd (get_llm_provider w))
  /\ trace (snd (get_llm_provider w')) = trace (snd (get_llm_provider w)) ->
  factory_outcome w' = factory_outcome w.
Proof. unfold factory_outcome. intros (-> & -> & ->). reflexivity. Qed.

(** X9: the selector is matched without regard to case, for every kind and
    on every path: two values of [LLM_PROVIDER] with the same lower-case
    form give the same result or error, the same object and the same
    reads. *)
Theorem X9_selector_ignores_case w v v' :
  Str.lower v' = Str.lower v ->
  factory_outcome (setenv "LLM_PROVIDER" v' w)
  = factory_outcome (setenv "LLM_PROVIDER" v w).
Proof.
  intros Hl. apply factory_outcome_eq.
  apply factory_reads; try reflexivity; unfold provider_type, setenv;
    cbn [environ].
  - now rewrite !lookup_insert_eq.
  - now rewrite !lookup_insert_ne.
  - now rewrite !lookup_insert_ne.
  - now rewrite !lookup_insert_ne.
  - now rewrite !lookup_insert_ne.
Qed.

(** X9 for [OLLAMA] and [Ollama]. *)
Lemma X9_selector_ignores_case_witness :
  let w := process [("LLM_MODEL", "phi3")] offline in
  factory_outcome (setenv "LLM_PROVIDER" "OLLAMA" w)
  = factory_outcome (setenv "LLM_PROVIDER" "Ollama" w).
Proof.
  apply (X9_selector_ignores_case (process [("LLM_MODEL", "phi3")] offline)
           "Ollama" "OLLAMA").
  vm_compute. reflexivity.
Defined.

(** X10: the factory itself looks up five names only. Setting or removing
    any other variable never changes what the factory reads; a
    configuration the factory refuses with an error of its own is refused
    with the same error; and with kind [ollama], whose adapter is built
    without a client library, the same adapter is built. Nothing is said of
    the adapters built on a client library: a client consults variables of
    its own, and the OpenAI client that is given no URL follows
    [OPENAI_BASE_URL]. *)
Theorem X10_factory_reads_five_names w key value :
  key ∉ config_keys ->
  let unchanged w' :=
    trace (snd (get_llm_provider w')) = trace (snd (get_llm_provider w))
    /\ (forall msg, fst (get_llm_provider w) = inl (ValueError msg) ->
        factory_outcome w' = factory_outcome w)
    /\ (provider_type w = "ollama" ->
        factory_outcome w' = factory_outcome w) in
  unchanged (setenv key value w) /\ unchanged (unsetenv key w).
Proof.
  unfold config_keys. intros Hk.
  assert (Hne : forall k, k ∈ config_keys -> key <> k).
  { intros k Hin ->. now apply Hk. }
  unfold config_keys in Hne.
  assert (Hsame : forall w',
            w' = setenv key value w \/ w' = unsetenv key w ->
            fst (get_llm_provider w') = fst (get_llm_provider w)
            /\ heap (snd (get_llm_provider w'))
               = heap (snd (get_llm_provider w))
            /\ trace (snd (get_llm_provider w'))
               = trace (snd (get_llm_provider w))).
  { intros w' [-> | ->]; apply factory_reads; try reflexivity;
      unfold provider_type, setenv, unsetenv; cbn [environ];
      rewrite ?lookup_insert_ne, ?lookup_delete_ne by (apply Hne; set_solver);
      reflexivity. }
  cbv zeta.
  split;
    [destruct (Hsame (setenv key value w)) as (Hr & Hh & Ht); [now left |]
    | destruct (Hsame (unsetenv key w)) as (Hr & Hh & Ht); [now right |]];
    (split; [exact Ht |]);
    (split; [intros _ _; apply factory_outcome_eq; auto |]);
    intros _; apply factory_outcome_eq; auto.
Qed.

(** X10 for the variable [PATH] in an Ollama process. *)
Lemma X10_factory_reads_five_names_witness :
  let w := process [("LLM_PROVIDER", "ollama")] offline in
  factory_outcome (setenv "PATH" "/usr/bin" w) = factory_outcome w
  /\ factory_outcome (unsetenv "PATH" w) = factory_outcome w.
Proof.
  intros w.
  destruct (X10_factory_reads_five_names w "PATH" "/usr/bin")
    as [(_ & _ & Hs) (_ & _ & Hu)].
  - unfold config_keys. intros H.
    repeat (apply elem_of_cons in H as [H | H]; [discriminate |]).
    now apply elem_of_nil in H.
  - split; [apply Hs | apply Hu]; vm_compute; reflexivity.
Defined.

(** X11: for the model name and the base URL, the empty string is the same
    as no value, for every kind: the factory run with [LLM_MODEL] (or
    [LLM_BASE_URL]) set to [""] is the run with that variable removed. *)
Theorem X11_empty_is_absent w key :
  key = "LLM_MODEL" \/ key = "LLM_BASE_URL" ->
  factory_outcome (setenv key "" w) = factory_outcome (unsetenv key w).
Proof.
  intros [-> | ->]; unfold factory_outcome; factory_open;
    unfold setenv, unsetenv; cbn [environ heap trace];
    rewrite ?lookup_insert_eq, ?lookup_delete_eq;
    rewrite ?lookup_insert_ne, ?lookup_delete_ne by discriminate;
    cbn [Str.nonempty Str.or_else Str.is_empty Str.truthy negb];
    repeat match goal with
    | |- context [if ?b then _ else _] => destruct b
    end; cbv beta iota; cbn [environ log];
    rewrite ?lookup_insert_ne, ?lookup_delete_ne by discriminate;
    repeat match goal with
    | |- context [match Str.nonempty ?o with _ => _ end] =>
        destruct (Str.nonempty o)
    end; cbv beta iota; cbn [environ log];
    rewrite ?lookup_insert_ne, ?lookup_delete_ne by discriminate;
    repeat match goal with
    | |- context [if ?b then _ else _] => destruct b
    end; reflexivity.
Qed.

(** X11 for a vLLM process: an empty model name is refused like a missing
    one. *)
Lemma X11_empty_is_absent_witness :
  let w := process [("LLM_PROVIDER", "vllm")] offline in
  factory_outcome (setenv "LLM_MODEL" "" w)
  = factory_outcome (unsetenv "LLM_MODEL" w).
Proof.
  apply (X11_empty_is_absent (process [("LLM_PROVIDER", "vllm")] offline)).
  left. reflexivity.
Defined.

(** X12: with kind [openai] and a non-empty [OPENAI_API_KEY], the factory
    returns a new OpenAI adapter: its model is [LLM_MODEL], or [gpt-4o]
    when that is absent or empty; its client holds the key, and is bound to
    [LLM_BASE_URL] when that is set and not empty, and to no URL of its own
    otherwise. *)
Theorem X12_openai_adapter w key :
  provider_type w = "openai" ->
  environ w !! "OPENAI_API_KEY" = Some key -> key <> "" ->
  factory_outcome w
  = (inr (length (heap w)),
     (heap w ++
      [IsOpenAI
         {| openai_model := Str.or_else (environ w !! "LLM_MODEL") "gpt-4o";
            openai_client :=
              {| oa_api_key := key;
                 oa_base_url := Str.nonempty (environ w !! "LLM_BASE_URL") |}
         |}])%list,
     (trace w ++ config_reads ++ [EvGetenv "OPENAI_API_KEY"])%list).
Proof.
  unfold provider_type. intros Hk Hkey Hne.
  unfold factory_outcome. factory_open. rewrite Hk. settle_eqb.
  cbn [environ log]. rewrite Hkey.
  destruct key as [|c key]; [congruence |].
  cbn [Str.nonempty Str.is_empty].
  destruct (environ w !! "LLM_BASE_URL") as [[|c' u]|];
    cbn [Str.truthy Str.nonempty Str.is_empty negb]; unfold new;
    cbn [fst snd alloc log heap trace];
    (f_equal; now rewrite <- !app_assoc).
Qed.

(** X12 for a process that sets the key and an empty base URL. *)
Lemma X12_openai_adapter_witness :
  let w := process [("OPENAI_API_KEY", "sk-test"); ("LLM_BASE_URL", "")]
             offline in
  factory_outcome w
  = (inr (length (heap w)),
     (heap w ++
      [IsOpenAI
         {| openai_model := Str.or_else (environ w !! "LLM_MODEL") "gpt-4o";
            openai_client :=
              {| oa_api_key := "sk-test";
                 oa_base_url := Str.nonempty (environ w !! "LLM_BASE_URL") |}
         |}])%list,
     (trace w ++ config_reads ++ [EvGetenv "OPENAI_API_KEY"])%list).
Proof.
  apply (X12_openai_adapter
           (process [("OPENAI_API_KEY", "sk-test"); ("LLM_BASE_URL", "")]
              offline) "sk-test");
    [vm_compute; reflexivity | vm_compute; reflexivity | discriminate].
Defined.



(** X14: the Anthropic adapter has no endpoint of its own: with kind
    [anthropic] or [claude], [LLM_BASE_URL] is read and not used, so setting
    it to any value changes neither the result nor the object built. *)
Theorem X14_anthropic_ignores_base_url w url :
  provider_type w = "anthropic" \/ provider_type w = "claude" ->
  factory_outcome (setenv "LLM_BASE_URL" url w) = factory_outcome w.
Proof.
  intros Hk. unfold factory_outcome.
  rewrite (factory_anthropic_branch w Hk).
  rewrite (factory_anthropic_branch (setenv "LLM_BASE_URL" url w)).
  - cbv zeta. unfold setenv. cbn [environ].
    rewrite !lookup_insert_ne by discriminate.
    destruct (Str.nonempty (environ w !! "ANTHROPIC_API_KEY")); reflexivity.
  - unfold provider_type, setenv in *. cbn [environ].
    now rewrite lookup_insert_ne by discriminate.
Qed.

(** X14 for a process configured for Anthropic. *)
Lemma X14_anthropic_ignores_base_url_witness :
  let w := process [("LLM_PROVIDER", "anthropic"); ("ANTHROPIC_API_KEY", "k")]
             offline in
  factory_outcome (setenv "LLM_BASE_URL" "http://proxy:9000" w)
  = factory_outcome w.
Proof.
  apply (X14_anthropic_ignores_base_url
           (process [("LLM_PROVIDER", "anthropic"); ("ANTHROPIC_API_KEY", "k")]
              offline)).
  left. vm_compute. reflexivity.
Defined.

(** The name of an adapter shows the model it was built for. *)
Lemma name_contains_model (o : LLMProvider) :
  Str.contains (model_of o) (name o) = true.
Proof.
  destruct o as [p | p | p | p | p]; cbn [name LLMProvider_Provider model_of];
    cbn [name OpenAI_Provider Anthropic_Provider Ollama_Provider VLLM_Provider
         OpenAICompatible_Provider];
    unfold OpenAIProvider.name, AnthropicProvider.name, OllamaProvider.name,
      VLLMProvider.name, OpenAICompatibleProvider.name;
    apply contains_append_l, contains_prefix, prefix_append.
Qed.

Lemma or_else_some (m d : string) : m <> "" -> Str.or_else (Some m) d = m.
Proof. destruct m; [congruence | reflexivity]. Qed.

Lemma nonempty_some (m : string) : m <> "" -> Str.nonempty (Some m) = Some m.
Proof. destruct m; [congruence | reflexivity]. Qed.

(** X15: whenever the factory returns, the reference it returns names an
    adapter whose [name] contains the model the adapter was built for; and
    when [LLM_MODEL] is set and not empty, that model is the configured
    one, for every kind. *)
Theorem X15_name_shows_model w p w' :
  get_llm_provider w = (inr p, w') ->
  exists o,
    heap w' !! p = Some o
    /\ Str.contains (model_of o) (name o) = true
    /\ (forall m, environ w !! "LLM_MODEL" = Some m -> m <> "" ->
        model_of o = m /\ Str.contains m (name o) = true).
Proof.
  intros Hrun.
  destruct (factory_returns_new w p w' Hrun) as (-> & o & Hh).
  exists o. split.
  { rewrite Hh, lookup_app_r by reflexivity. now rewrite Nat.sub_diag. }
  split; [apply name_contains_model |].
  intros m Hm Hne.
  assert (Hmo : model_of o = m); [| split; [exact Hmo |];
    rewrite <- Hmo; apply name_contains_model].
  revert Hrun. factory_open. rewrite Hm.
  rewrite !or_else_some, nonempty_some by exact Hne.
  repeat match goal with
  | |- context [if ?b then _ else _] => destruct b
  end; cbv beta iota; cbn [environ log];
  repeat match goal with
  | |- context [match Str.nonempty ?x with _ => _ end] =>
      destruct (Str.nonempty x)
  end; cbv beta iota; cbn [environ log];
  repeat match goal with
  | |- context [if ?b then _ else _] => destruct b
  end; unfold raise, new; cbv beta iota; intros [= <-];
  cbn [heap alloc] in Hh;
  apply app_inv_head in Hh; injection Hh as <-; reflexivity.
Qed.

(** X15 for an Ollama process with a configured model. *)
Lemma X15_name_shows_model_witness :
  let w := process [("LLM_PROVIDER", "ollama"); ("LLM_MODEL", "phi3")]
             offline in
  exists o,
    heap (snd (get_llm_provider w)) !! 0%nat = Some o
    /\ Str.contains (model_of o) (name o) = true
    /\ (forall m, environ w !! "LLM_MODEL" = Some m -> m <> "" ->
        model_of o = m /\ Str.contains m (name o) = true).
Proof.
  intros w.
  apply (X15_name_shows_model w 0%nat (snd (get_llm_provider w))).
  reflexivity.
Defined.

End FactoryFacts.

(** * Further properties of the accessor and of its callers *)

Section AccessorFacts.

#[local] Instance same_cell_is_preorder : PreOrder same_cell.
Proof.
  split; [intros w; reflexivity |].
  intros a b c Hab Hbc. unfold same_cell in *. congruence.
Qed.

#[local] Instance heap_grows_is_preorder : PreOrder heap_grows.
Proof.
  split; [intros w; unfold heap_grows; reflexivity |].
  intros a b c Hab Hbc. unfold heap_grows in *.
  transitivity (heap b); assumption.
Qed.

(** What a run of the factory that raises leaves behind. *)
Lemma factory_raise_shape w e w' :
  get_llm_provider w = (inl e, w') ->
  heap w' = heap w /\ _provider w' = _provider w.
Proof.
  unfold get_llm_provider, bind, os_getenv, os_getenv_default, ret,
    construct, OpenAIProvider.__init__, VLLMProvider.__init__,
    OpenAICompatibleProvider.__init__, OpenAI.
  cbn [environ log fst snd].
  repeat match goal with
  | |- context [if ?b then _ else _] => destruct b
  end; cbv beta iota; cbn [environ log];
  repeat match goal with
  | |- context [match Str.nonempty ?o with _ => _ end] =>
      destruct (Str.nonempty o)
  end; cbv beta iota; cbn [environ log];
  repeat match goal with
  | |- context [if ?b then _ else _] => destruct b
  end; unfold raise, new; cbv beta iota; intros [= <- <-];
  (split; reflexivity).
Qed.

(** All a run of the factory adds to the trace is reads of the
    environment. *)
Lemma factory_trace_reads w :
  exists keys,
    trace (snd (get_llm_provider w)) = (trace w ++ map EvGetenv keys)%list.
Proof.
  unfold get_llm_provider, bind, os_getenv, os_getenv_default, ret,
    construct, OpenAIProvider.__init__, VLLMProvider.__init__,
    OpenAICompatibleProvider.__init__, OpenAI.
  cbn [environ log fst snd].
  repeat match goal with
  | |- context [if ?b then _ else _] => destruct b
  end; cbv beta iota; cbn [environ log];
  repeat match goal with
  | |- context [match Str.nonempty ?o with _ => _ end] =>
      destruct (Str.nonempty o)
  end; cbv beta iota; cbn [environ log];
  repeat match goal with
  | |- context [if ?b then _ else _] => destruct b
  end; unfold raise, new; cbv beta iota; cbn [fst snd alloc log trace];
  first
    [ exists ["LLM_PROVIDER"; "LLM_MODEL"; "LLM_BASE_URL"];
      cbn; now rewrite <- !app_assoc
    | exists ["LLM_PROVIDER"; "LLM_MODEL"; "LLM_BASE_URL"; "OPENAI_API_KEY"];
      cbn; now rewrite <- !app_assoc
    | exists ["LLM_PROVIDER"; "LLM_MODEL"; "LLM_BASE_URL"; "ANTHROPIC_API_KEY"];
      cbn; now rewrite <- !app_assoc ].
Qed.

(** X16: a call of [get_provider] raises only when the global is empty and
    the factory raises; the exception is the one the factory raised,
    whichever it is, and the call leaves the global empty and the store as
    it was: a failure is never cached, and the next call runs the factory
    again. *)
Theorem X16_accessor_failure w e w' :
  get_provider w = (inl e, w') ->
  _provider w = None
  /\ get_llm_provider w = (inl e, w')
  /\ _provider w' = None
  /\ heap w' = heap w.
Proof.
  intros H. destruct (_provider w) as [q |] eqn:Hq.
  - rewrite (get_provider_cached w q Hq) in H. discriminate.
  - rewrite (get_provider_first w Hq) in H.
    destruct (get_llm_provider w) as [[e0 | q] w0] eqn:Hf; [| discriminate].
    injection H as <- <-.
    destruct (factory_raise_shape w e0 w0 Hf) as (Hh & Hc).
    repeat split; auto. congruence.
Qed.

(** X16 in a vLLM process whose [OPENAI_API_KEY] is set and empty: the
    client's refusal is not cached either. *)
Lemma X16_accessor_failure_witness :
  let w := process [("LLM_PROVIDER", "vllm"); ("LLM_MODEL", "qwen");
                    ("OPENAI_API_KEY", "")] offline in
  _provider w = None
  /\ get_llm_provider w = (inl OpenAIError, snd (get_provider w))
  /\ _provider (snd (get_provider w)) = None
  /\ heap (snd (get_provider w)) = heap w.
Proof.
  intros w.
  apply (X16_accessor_failure w OpenAIError (snd (get_provider w))).
  reflexivity.
Defined.

Lemma get_provider_well_formed w :
  well_formed w -> well_formed (snd (get_provider w)).
Proof.
  intros Hw. destruct (_provider w) as [q |] eqn:Hq.
  - now rewrite (get_provider_cached w q Hq).
  - rewrite (get_provider_first w Hq).
    destruct (get_llm_provider w) as [[e | q] w0] eqn:Hf; cbn [snd].
    + destruct (factory_raise_shape w e w0 Hf) as (Hh & Hc).
      intros p Hp. rewrite Hc, Hq in Hp. discriminate.
    + destruct (factory_returns_new w q w0 Hf) as (-> & o & Ho).
      intros p Hp. cbn in Hp. injection Hp as <-. cbn [heap set_provider].
      exists o. rewrite Ho, lookup_app_r by reflexivity.
      now rewrite Nat.sub_diag.
Qed.

(** X18: the module-level [chat]. With the global filled, it is the [chat]
    of the cached adapter and nothing else. With the global empty and a
    configuration the factory refuses, it raises the factory's error, sends
    nothing to any backend and caches nothing. With the global empty and a
    configuration the factory accepts, it is the [chat] of the adapter
    just built, run in the state in which that adapter is cached. *)
Theorem X18_module_chat messages max_tokens temperature w :
  (forall p o, _provider w = Some p -> heap w !! p = Some o ->
     module_chat messages max_tokens temperature w
     = chat o messages max_tokens temperature w)
  /\ (forall e w', _provider w = None -> get_llm_provider w = (inl e, w') ->
      module_chat messages max_tokens temperature w = (inl e, w')
      /\ _provider w' = None
      /\ Forall (fun ev => is_network_call ev = false)
           (drop (length (trace w)) (trace w')))
  /\ (forall p w', _provider w = None -> get_llm_provider w = (inr p, w') ->
      exists o,
        heap w' !! p = Some o
        /\ module_chat messages max_tokens temperature w
           = chat o messages max_tokens temperature (set_provider p w')).
Proof.
  split; [| split].
  - intros p o Hp Ho. unfold module_chat. unfold bind at 1.
    rewrite (get_provider_cached w p Hp). unfold bind, deref.
    now rewrite Ho.
  - intros e w' Hp Hf. unfold module_chat. unfold bind at 1.
    rewrite (get_provider_first w Hp), Hf.
    destruct (factory_raise_shape w e w' Hf) as (_ & Hc).
    split; [reflexivity |]. split; [congruence |].
    pose proof (factory_trace_reads w) as Ht.
    rewrite Hf in Ht. cbn [snd] in Ht. destruct Ht as (keys & ->).
    rewrite drop_app_length.
    induction keys as [|k keys IH]; constructor; [reflexivity | exact IH].
  - intros p w' Hp Hf. unfold module_chat. unfold bind at 1.
    rewrite (get_provider_first w Hp), Hf.
    destruct (factory_returns_new w p w' Hf) as (-> & o & Ho).
    exists o.
    assert (Hl : heap w' !! length (heap w) = Some o).
    { rewrite Ho, lookup_app_r by reflexivity. now rewrite Nat.sub_diag. }
    split; [exact Hl |].
    cbv beta iota. unfold bind, deref. cbv beta iota.
    cbn [heap set_provider]. unfold ref in *. now rewrite Hl.
Qed.

(** X18 in a process configured for Ollama, with the global still empty. *)
Lemma X18_module_chat_witness :
  let w := process [("LLM_PROVIDER", "ollama")]
             (backend_answering (reply 200 " hi ")) in
  exists o,
    heap (snd (get_llm_provider w)) !! 0%nat = Some o
    /\ module_chat hello 500 0.5%float w
       = chat o hello 500 0.5%float
           (set_provider 0%nat (snd (get_llm_provider w))).
Proof.
  intros w.
  apply (proj2 (proj2 (X18_module_chat hello 500 0.5%float w))
           0%nat (snd (get_llm_provider w))); reflexivity.
Defined.

Lemma get_provider_fills w p w1 :
  get_provider w = (inr p, w1) -> _provider w1 = Some p.
Proof.
  intros H. destruct (_provider w) as [q |] eqn:Hq.
  - rewrite (get_provider_cached w q Hq) in H. congruence.
  - rewrite (get_provider_first w Hq) in H.
    destruct (get_llm_provider w) as [[e | q] w']; [discriminate |].
    injection H as <- <-. reflexivity.
Qed.

(** X19: [generate_description] called with an [item_type] that is neither
    [table] nor [column] never reaches a backend. It first obtains the
    provider, so a configuration the factory refuses surfaces as the
    factory's error; otherwise the call raises [UnboundLocalError] for the
    local [prompt], after the adapter has been built and cached. In both
    cases the state it leaves is the state [get_provider] leaves. *)
Theorem X19_unknown_item_type_raises
    (TABLE_PROMPT : string -> string)
    (COLUMN_PROMPT : string -> option string -> string)
    (SYSTEM_PROMPT : string) (max_tokens : Z) (temperature : float)
    item_name item_type data_type w :
  well_formed w ->
  item_type <> "table" -> item_type <> "column" ->
  generate_description TABLE_PROMPT COLUMN_PROMPT SYSTEM_PROMPT max_tokens
    temperature item_name item_type data_type w
  = (match fst (get_provider w) with
     | inl e => inl (Raised e)
     | inr _ => inl (UnboundLocalError "prompt")
     end,
     snd (get_provider w)).
Proof.
  intros Hw Ht Hc. unfold generate_description.
  apply String.eqb_neq in Ht, Hc. rewrite Ht, Hc.
  unfold bind.
  pose proof (get_provider_well_formed w Hw) as Hg.
  destruct (get_provider w) as [[e | p] w1] eqn:Hrun; cbn [fst snd] in *;
    [reflexivity |].
  pose proof (get_provider_fills w p w1 Hrun) as Hp.
  destruct (Hg p Hp) as [o Ho]. unfold deref, ref in *. now rewrite Ho.
Qed.

(** X19 in a process configured for Ollama: the adapter is built, then the
    call raises. *)
Lemma X19_unknown_item_type_raises_witness :
  let w := process [("LLM_PROVIDER", "ollama")] offline in
  generate_description (fun n => "Describe table " +:+ n)
    (fun n _ => "Describe column " +:+ n) "You describe schemas." 200
    0.5%float "orders" "view" None w
  = (inl (UnboundLocalError "prompt"), snd (get_provider w)).
Proof.
  intros w.
  apply (X19_unknown_item_type_raises (fun n => "Describe table " +:+ n)
           (fun n _ => "Describe column " +:+ n) "You describe schemas." 200
           0.5%float "orders" "view" None w).
  - intros p Hp. discriminate.
  - discriminate.
  - discriminate.
Defined.

Lemma request_eta self messages max_tokens :
  AnthropicProvider.request self messages max_tokens
  = {| mr_model := anthropic_model self;
       mr_max_tokens := max_tokens;
       mr_system :=
         mr_system (AnthropicProvider.request self messages max_tokens);
       mr_messages :=
         mr_messages (AnthropicProvider.request self messages max_tokens) |}.
Proof.
  unfold AnthropicProvider.request.
  destruct (AnthropicProvider.split messages) as [sc cm]. reflexivity.
Qed.

(** X20: [generate_description] for a table or a column, in a process whose
    cached adapter is the Anthropic one, sends exactly one call: its
    preamble is the description system prompt stripped (present even when
    that prompt is empty), and its turns are the single user message
    holding the formatted prompt. The placeholder turn is never sent, and
    the configured temperature is not part of the call. *)
Theorem X20_description_through_anthropic
    (TABLE_PROMPT : string -> string)
    (COLUMN_PROMPT : string -> option string -> string)
    (SYSTEM_PROMPT : string) (max_tokens : Z) (temperature : float)
    item_name item_type data_type w p a :
  _provider w = Some p ->
  heap w !! p = Some (IsAnthropic a) ->
  item_type = "table" \/ item_type = "column" ->
  let prompt :=
    if String.eqb item_type "table" then TABLE_PROMPT item_name
    else COLUMN_PROMPT item_name data_type in
  trace (snd (generate_description TABLE_PROMPT COLUMN_PROMPT SYSTEM_PROMPT
                max_tokens temperature item_name item_type data_type w))
  = (trace w ++
     [EvMessagesCreate (anthropic_client a)
        {| mr_model := anthropic_model a;
           mr_max_tokens := max_tokens;
           mr_system := Some (Str.strip SYSTEM_PROMPT);
           mr_messages := [{| role := "user"; content := prompt |}] |}])%list.
Proof.
  intros Hp Ho Hk prompt. subst prompt. unfold generate_description.
  unfold bind. rewrite (get_provider_cached w p Hp).
  unfold deref, ref in *. rewrite Ho.
  assert (Hreq : forall text,
    AnthropicProvider.request a
      [{| role := "system"; content := SYSTEM_PROMPT |};
       {| role := "user"; content := text |}] max_tokens
    = {| mr_model := anthropic_model a;
         mr_max_tokens := max_tokens;
         mr_system := Some (Str.strip SYSTEM_PROMPT);
         mr_messages := [{| role := "user"; content := text |}] |}).
  { intros text. rewrite request_eta, request_system, request_messages.
    reflexivity. }
  destruct Hk as [-> | ->].
  - change (String.eqb "table" "table") with true. cbv beta iota.
    change (chat (IsAnthropic a)) with (AnthropicProvider.chat a).
    rewrite anthropic_chat_run. cbv zeta. rewrite Hreq.
    destruct (on_messages_create _ _ _ _) as [e | r]; [reflexivity |].
    destruct (blocks r) as [|[text|] bs]; reflexivity.
  - change (String.eqb "column" "table") with false.
    change (String.eqb "column" "column") with true. cbv beta iota.
    change (chat (IsAnthropic a)) with (AnthropicProvider.chat a).
    rewrite anthropic_chat_run. cbv zeta. rewrite Hreq.
    destruct (on_messages_create _ _ _ _) as [e | r]; [reflexivity |].
    destruct (blocks r) as [|[text|] bs]; reflexivity.
Qed.

(** X20 in a process whose cached adapter is the Anthropic adapter of the
    examples. *)
Lemma X20_description_through_anthropic_witness :
  let w := {| environ := ∅; heap := [IsAnthropic claude];
              _provider := Some 0%nat; trace := []; backend := offline |} in
  trace (snd (generate_description (fun n => "Describe table " +:+ n)
                (fun n _ => "Describe column " +:+ n) " You describe schemas. "
                200 0.5%float "orders" "table" None w))
  = [EvMessagesCreate {| an_api_key := "key" |}
       {| mr_model := "claude-sonnet-4-20250514";
          mr_max_tokens := 200;
          mr_system := Some (Str.strip " You describe schemas. ");
          mr_messages :=
            [{| role := "user"; content := "Describe table " +:+ "orders" |}]
       |}].
Proof.
  intros w.
  apply (X20_description_through_anthropic (fun n => "Describe table " +:+ n)
           (fun n _ => "Describe column " +:+ n) " You describe schemas. "
           200 0.5%float "orders" "table" None w 0%nat claude);
    [reflexivity | reflexivity | left; reflexivity].
Defined.

End AccessorFacts.
